(** * UEVaultManager: merge engine and dataset view

    A shallow embedding of
    - [update_and_merge_csv_record_data] and the merge pass of [list_assets]
      (UEVaultManager/cli.py),
    - the pagination, save and dirty/delete tracking methods of
      [EditableTable] (UEVaultManager/tkgui/modules/cls/EditableTableClass.py),
    together with the properties stated about them. *)

From stdpp Require Import gmap strings list fin_maps pretty sorting.
From Stdlib Require Import Ascii ZArith PrimFloat SpecFloat FloatOps.

Open Scope string_scope.
Open Scope list_scope.

(** ** Python values, exceptions and logging *)

Module Py.

(** The exception classes that the modelled code raises or catches;
    [OperationalError] is the one of sqlite3 (a locked database, a full
    disk). *)
Inductive exn : Type :=
  | IndexError
  | TypeError
  | KeyError
  | ValueError
  | AttributeError
  | OSError
  | ZeroDivisionError
  | OperationalError.

(** The values a record cell can hold once it has been built by
    [create_asset_from_data]: text, booleans, integers, floats and None. *)
Inductive pyval : Type :=
  | VNone
  | VBool (b : bool)
  | VInt (z : Z)
  | VFloat (x : float)
  | VStr (s : string).

(** [float(n)] for a Python int: the nearest double. *)
Definition float_of_int (n : Z) : float :=
  SF2Prim (binary_normalize prec emax n 0 false).

Inductive level : Type := DEBUG | INFO | WARNING | ERROR.

(** A log record: the level and the message, the interpolated parts kept
    apart from the fixed text. *)
Record log_entry : Type := Log { log_level : level; log_text : string; log_args : list string }.

Inductive result (A : Type) : Type :=
  | Ok (a : A)
  | Raise (e : exn).
Arguments Ok {A} a.
Arguments Raise {A} e.

(** Computations that may raise and that write to the logger. *)
Definition M (A : Type) : Type := result A * list log_entry.

Definition ret {A} (a : A) : M A := (Ok a, []).
Definition raise {A} (e : exn) : M A := (Raise e, []).
Definition logger (lvl : level) (text : string) (args : list string) : M unit :=
  (Ok tt, [Log lvl text args]).
Definition bind {A B} (m : M A) (k : A -> M B) : M B :=
  match m with
  | (Ok a, l1) => let '(r, l2) := k a in (r, l1 ++ l2)
  | (Raise e, l1) => (Raise e, l1)
  end.

(** [l[i]] *)
Definition getitem {A} (l : list A) (i : nat) : M A :=
  match l !! i with
  | Some x => ret x
  | None => raise IndexError
  end.

(** [l[i] = x] *)
Definition setitem {A} (l : list A) (i : nat) (x : A) : M (list A) :=
  if decide (i < length l) then ret (<[i:=x]> l) else raise IndexError.

(** [s.split(sep)] for a one-character separator. *)
Fixpoint split (sep : Ascii.ascii) (s : string) : list string :=
  match s with
  | EmptyString => [EmptyString]
  | String c s' =>
      if Ascii.eqb c sep then EmptyString :: split sep s'
      else match split sep s' with
           | [] => [String c EmptyString]
           | t :: ts => String c t :: ts
           end
  end.

(** [sep.join(l)] on a list of str. *)
Fixpoint join_str (sep : string) (l : list string) : string :=
  match l with
  | [] => EmptyString
  | [s] => s
  | s :: l' => s +:+ sep +:+ join_str sep l'
  end.

Definition as_str (v : pyval) : option string :=
  match v with VStr s => Some s | _ => None end.

(** [sep.join(l)]: TypeError when an item is not a str. *)
Definition join (sep : string) (l : list pyval) : M string :=
  match mapM as_str l with
  | Some ss => ret (join_str sep ss)
  | None => raise TypeError
  end.

(** [v == s] for a str [s]. *)
Definition eq_str (v : pyval) (s : string) : bool :=
  match v with VStr t => bool_decide (t = s) | _ => false end.

(** [v in l] for a list of str. *)
Definition contains (l : list string) (v : pyval) : bool :=
  existsb (eq_str v) l.

End Py.
Import Py.

Notation "'let*' x ':=' m 'in' k" := (bind m (fun x => k))
  (at level 10, x name, m at level 100, k at level 200).

(** ** The CSV merge of [list_assets] (cli.py) *)

Module Merge.

(** A row of the existing file as [csv.DictReader] yields it: a dict from
    column name to cell, a cell being a str, or None when the line was
    shorter than the header (restval). *)
Abbreviation file_row := (gmap string (option string)).

(** The tokens of a comma-separated cell; a str is a single token when
    splitting it gives it back. *)
Definition tokens (v : pyval) : list string :=
  match v with
  | VStr s => split ","%char s
  | _ => []
  end.

Definition single_token (s : string) : Prop := split ","%char s = [s].

(** The strs that the 'Origin' branch joins when the incoming value is the
    str [incoming]. *)
Definition union_strs (value incoming : string) : list string :=
  if bool_decide (incoming ∈ split ","%char value)
  then split ","%char value
  else split ","%char value ++ [incoming].

Section update_and_merge.

(** The pieces of the field registry and of the settings that the merge
    consults. They are declared in modules outside this development
    (models/csv_sql_fields.py, utils/cli.py, tkgui/modules/globals.py,
    tkgui/modules/functions_no_deps.py) and are taken as they come. *)
Variable get_csv_field_name_list : list string.
Variable is_preserved : string -> bool.
Variable empty_cell : string.
Variable str_is_bool : string -> bool.
Variable str_to_bool : string -> bool.
Variable convert_to_float : pyval -> float.

(** The locals of the loop over the columns. *)
Record locals : Type := Locals {
  csv_record : list pyval;
  price_index : nat;
  price : float;
  old_price : float
}.

Definition set_csv_record (st : locals) (r : list pyval) : locals :=
  Locals r (price_index st) (price st) (old_price st).

(** [str_to_bool(value) if str_is_bool(value) else value] *)
Definition coerce (value : string) : pyval :=
  if str_is_bool value then VBool (str_to_bool value) else VStr value.

(** One iteration of [for index, csv_field in enumerate(...)]. *)
Definition merge_field (asset_id : string) (item_in_file : file_row)
    (st : locals) (index : nat) (csv_field : string) : M locals :=
  let preserved_value_in_file := is_preserved csv_field in
  match item_in_file !! csv_field ≫= id with
  | None =>
      let* _ := logger WARNING "In the existing data, asset has no column named"
             [asset_id; csv_field] in
      ret st
  | Some value =>
      if bool_decide (value = empty_cell) then
        let* r := setitem (csv_record st) index (VStr "") in
        ret (set_csv_record st r)
      else
        let* st1 :=
          (if bool_decide (csv_field = "Price") then
             let* new := getitem (csv_record st) index in
             ret (Locals (csv_record st) index (convert_to_float new)
                    (convert_to_float (VStr value)))
           else if bool_decide (csv_field = "Origin") then
             let folder_list := split ","%char value in
             let* incoming := getitem (csv_record st) index in
             let folder_list' :=
               if contains folder_list incoming
               then VStr <$> folder_list
               else (VStr <$> folder_list) ++ [incoming] in
             let* joined := join "," folder_list' in
             let* r := setitem (csv_record st) index (VStr joined) in
             ret (set_csv_record st r)
           else ret st) in
        if preserved_value_in_file then
          let* r := setitem (csv_record st1) index (coerce value) in
          ret (set_csv_record st1 r)
        else ret st1
  end.

Fixpoint merge_fields (asset_id : string) (item_in_file : file_row)
    (index : nat) (fields : list string) (st : locals) : M locals :=
  match fields with
  | [] => ret st
  | csv_field :: rest =>
      let* st' := merge_field asset_id item_in_file st index csv_field in
      merge_fields asset_id item_in_file (S index) rest st'
  end.

(** [update_and_merge_csv_record_data(_asset_id, _asset_data, _items_in_file,
    _no_data_value)]. [_asset_data] is an insertion-ordered dict, here the
    list of its items; [_no_data_value] is the int the caller passes. *)
Definition update_and_merge_csv_record_data (asset_id : string)
    (asset_data : list (string * pyval))
    (items_in_file : gmap string file_row) (no_data_value : Z)
    : M (list pyval) :=
  let csv_fields_count := length get_csv_field_name_list in
  let csv_record0 := asset_data.*2 in
  match items_in_file !! asset_id with
  | Some item_in_file =>
      if bool_decide (item_in_file = ∅) then ret csv_record0
      else if bool_decide (size item_in_file ≠ csv_fields_count) then
        let* _ := logger ERROR
          "In the existing file, asset has not the same number of keys as the CSV headings. This asset is ignored and its values will be overwritten"
          [asset_id] in
        ret csv_record0
      else
        let* st := merge_fields asset_id item_in_file 0 get_csv_field_name_list
                (Locals csv_record0 0 (float_of_int no_data_value)
                   (float_of_int no_data_value)) in
        if decide (0 < price_index st) then
          setitem (csv_record st) (price_index st + 1) (VFloat (old_price st))
        else ret (csv_record st)
  | None => ret csv_record0
  end.

(** Reading aids for the statements below. *)

(** [item_in_file.get(csv_field, None)]: the cell, None when the column is
    missing or the cell itself is None. *)
Definition existing_cell (item_in_file : file_row) (csv_field : string)
    : option string :=
  item_in_file !! csv_field ≫= id.

(** The folder list of the 'Origin' branch once the incoming value has been
    considered. *)
Definition union_origin (value : string) (incoming : pyval) : list pyval :=
  if contains (split ","%char value) incoming
  then VStr <$> split ","%char value
  else (VStr <$> split ","%char value) ++ [incoming].

(** What one iteration leaves in [_csv_record[index]] when the cell of the
    file holds the str [value] and the record held [incoming]. *)
Definition merged_value (csv_field value : string) (incoming : pyval) : M pyval :=
  if bool_decide (value = empty_cell) then ret (VStr "")
  else
    let* v1 :=
      (if bool_decide (csv_field = "Price") then ret incoming
       else if bool_decide (csv_field = "Origin") then
         let* joined := join "," (union_origin value incoming) in
         ret (VStr joined)
       else ret incoming) in
    ret (if is_preserved csv_field then coerce value else v1).

(** Whether an iteration records the price of the file. *)
Definition captures_price (item_in_file : file_row) (csv_field : string) : bool :=
  match existing_cell item_in_file csv_field with
  | Some value => bool_decide (csv_field = "Price") && negb (bool_decide (value = empty_cell))
  | None => false
  end.

(** The incoming record has the columns of the CSV, in their order, as
    [create_asset_from_data] builds it with
    [dict(zip(get_csv_field_name_list(), values))]. *)
Definition has_csv_columns (asset_data : list (string * pyval)) : Prop :=
  asset_data.*1 = get_csv_field_name_list.

(** The incoming 'Origin' is a str, as the 'Marketplace' that
    [create_asset_from_data] puts there. *)
Definition origin_is_str (asset_data : list (string * pyval)) : bool :=
  forallb (fun kv => negb (String.eqb kv.1 "Origin") || bool_decide (is_Some (as_str kv.2)))
    asset_data.

(** Column [i] comes right after a 'Price' column: it is where the old
    price is written. *)
Definition follows_price (i : nat) : bool :=
  match i with
  | O => false
  | S p => bool_decide (get_csv_field_name_list !! p = Some "Price")
  end.

(** 'Price' is not the last column: the write of the old price has a
    column to land in. *)
Definition price_has_next_column : bool :=
  negb (bool_decide (last get_csv_field_name_list = Some "Price")).

(** Writing the merged records and reading the file again. [csv.writer]
    writes None as the empty text, a str as it is, a float with [repr]
    and anything else with [str]; [csv.DictReader] gives the text back
    under the column names of the header. [float_repr] is Python's
    [repr] on floats. *)
Variable float_repr : float -> string.

Definition csv_str (v : pyval) : string :=
  match v with
  | VNone => ""
  | VBool true => "True"
  | VBool false => "False"
  | VInt z => pretty z
  | VFloat x => float_repr x
  | VStr s => s
  end.

Definition reread (csv_record : list pyval) : file_row :=
  list_to_map (zip get_csv_field_name_list (Some ∘ csv_str <$> csv_record)).

(** The caller's step in [list_assets], for one entry of
    [sorted(assets_to_output.items())]. *)
Definition csv_record_merged (asset_id : string)
    (asset_data : list (string * pyval))
    (assets_in_file : gmap string file_row) (no_int_data : Z)
    : M (list pyval) :=
  if decide (0 < size assets_in_file) then
    update_and_merge_csv_record_data asset_id asset_data assets_in_file no_int_data
  else ret (asset_data.*2).

End update_and_merge.

End Merge.

(** ** The merge pass of [list_assets] over the catalog items (cli.py) *)

Module ListAssets.

(** What the pass reads of an [AssetInfo] and of a catalog item. *)
Record AssetInfo : Type := { asset_id : string }.

Record Game : Type := {
  app_name : string;
  app_title : string;
  asset_infos : gmap string AssetInfo
}.

(** [c.lower()] on one character and [s.lower()] on a str of ASCII
    characters. *)
Definition lower_ascii (c : ascii) : ascii :=
  let n := nat_of_ascii c in
  if (65 <=? n)%nat && (n <=? 90)%nat then ascii_of_nat (n + 32) else c.

Fixpoint lower (s : string) : string :=
  match s with
  | EmptyString => EmptyString
  | String c s' => String (lower_ascii c) (lower s')
  end.

(** [sorted(items, key=key, reverse=True)]: a stable sort, greatest key
    first, items with equal keys in the order of the input. *)
Section sorted.
Context {A : Type} (key : A -> string).

Fixpoint insert_desc (x : A) (l : list A) : list A :=
  match l with
  | [] => [x]
  | y :: l' =>
      if String.leb (key y) (key x) then x :: y :: l'
      else y :: insert_desc x l'
  end.

Definition sorted_reverse (items : list A) : list A :=
  foldr insert_desc [] items.

(** [x] may stand before [y] in the sorted list: its key is not smaller. *)
Definition before (x y : A) : Prop := String.le (key y) (key x).
End sorted.

Section merge_pass.

Variable get_csv_field_name_list : list string.
(** The tuple [values] that [create_asset_from_data] builds from the item,
    its extra data and the clock; [None] when building it raises the
    TypeError the function catches. *)
Variable values : Game -> string -> option (list pyval).
Variable verbose_mode : bool.

(** [create_asset_from_data(item, asset_id, ...)]: the record is
    [dict(zip(get_csv_field_name_list(), values))], or stays [{}]. *)
Definition create_asset_from_data (item : Game) (asset_id : string)
    : M (string * list (string * pyval)) :=
  match values item asset_id with
  | Some vs => ret (asset_id, zip get_csv_field_name_list vs)
  | None =>
      let* _ := logger ERROR "Could not create record for" [app_name item] in
      ret (asset_id, [])
  end.

(** The record that [create_asset_from_data] returns for an item. *)
Definition record_of (item : Game) (asset_id : string) : list (string * pyval) :=
  match values item asset_id with
  | Some vs => zip get_csv_field_name_list vs
  | None => []
  end.

(** The asset_id chosen for an item. *)
Definition item_asset_id (item : Game) : string :=
  match asset_infos item !! "Windows" with
  | Some info => asset_id info
  | None => app_title item
  end.

(** Truth value of [assets_to_output.get(asset_id)]. *)
Definition truthy_get (d : gmap string (list (string * pyval))) (k : string) : bool :=
  match d !! k with
  | Some (_ :: _) => true
  | _ => false
  end.

(** One iteration of [for item in items], without a progress window. *)
Definition merge_item (assets_to_output : gmap string (list (string * pyval)))
    (item : Game) : M (gmap string (list (string * pyval))) :=
  let asset_id := item_asset_id item in
  let* out :=
    (if truthy_get assets_to_output asset_id then
       let* _ := logger DEBUG
         "Asset already present in the list (usually with another ue version)"
         [asset_id] in
       ret assets_to_output
     else
       let* created := create_asset_from_data item asset_id in
       ret (<[created.1 := created.2]> assets_to_output)) in
  if verbose_mode then
    let* _ := logger INFO "Asset has been created from data." [asset_id] in
    ret out
  else ret out.

Fixpoint merge_items (assets_to_output : gmap string (list (string * pyval)))
    (items : list Game) : M (gmap string (list (string * pyval))) :=
  match items with
  | [] => ret assets_to_output
  | item :: rest =>
      let* out := merge_item assets_to_output item in
      merge_items out rest
  end.

(** The first item of a list that has the asset_id [k], with its
    position. *)
Definition first_with (k : string) (items : list Game) : option (nat * Game) :=
  list_find (fun item => item_asset_id item = k) items.

(** The first item of a list that has the asset_id [k] and for which a
    record could be built. *)
Definition first_built (k : string) (items : list Game) : option (nat * Game) :=
  list_find (fun item => item_asset_id item = k /\ record_of item k <> []) items.

(** What the loop leaves in the slot [k] of a dict in which the slot was
    free or held an empty record: the record of the first item for which
    one could be built, an empty record when none could. *)
Definition slot_after (k : string) (items : list Game)
    (held : option (list (string * pyval))) : option (list (string * pyval)) :=
  match first_built k items with
  | Some p => Some (record_of p.2 k)
  | None =>
      match first_with k items with
      | Some _ => Some []
      | None => held
      end
  end.

(** The pass: sort by lowercased name, greatest first, then fill
    [assets_to_output]. *)
Definition merge_pass (items : list Game) : M (gmap string (list (string * pyval))) :=
  let items := sorted_reverse (fun x => lower (app_name x)) items in
  merge_items ∅ items.

End merge_pass.

End ListAssets.

(** ** The editable table (EditableTableClass.py) *)

Module Table.

Inductive DataSourceType : Type := FILE | SQLITE.

(** [l[start:stop]] and [df.iloc[start:stop]]: out-of-range bounds are
    clipped, negative ones count from the end; no exception. *)
Definition slice_bound (len i : Z) : Z :=
  if (i <? 0)%Z then Z.max 0 (i + len) else Z.min i len.

Definition slice {A} (l : list A) (start stop : Z) : list A :=
  let len := Z.of_nat (length l) in
  let s := slice_bound len start in
  let e := slice_bound len stop in
  take (Z.to_nat (e - s)) (drop (Z.to_nat s) l).

(** [df.iloc[i]] for an int: IndexError outside [-len, len). *)
Definition iloc {A} (l : list A) (i : Z) : result A :=
  let len := Z.of_nat (length l) in
  let j := if (i <? 0)%Z then (i + len)%Z else i in
  if ((0 <=? j) && (j <? len))%Z then
    match l !! Z.to_nat j with Some x => Ok x | None => Raise IndexError end
  else Raise IndexError.

(** The least integer not below [n / d], for a positive [d]. *)
Definition ceil_div (n d : Z) : Z := (- ((- n) / d))%Z.

(** [n // d] *)
Definition floordiv (n d : Z) : result Z :=
  if (d =? 0)%Z then Raise ZeroDivisionError else Ok (n / d)%Z.

Section EditableTable.

Context {Row : Type}.

(** The attributes of the table that the modelled methods use. *)
Record EditableTable : Type := mkTable {
  data : list Row;                 (* self._data *)
  filtered : list Row;             (* self._filtered *)
  model_df : list Row;             (* self.model.df *)
  changed_rows : list Z;           (* self._changed_rows *)
  deleted_asset_ids : list string; (* self._deleted_asset_ids *)
  data_source_type : DataSourceType;
  pagination_enabled : bool;
  current_page : Z;
  total_pages : Z;
  rows_per_page : Z;
  must_save : bool;
  must_rebuild : bool;
  row_count : Z;
  row_filtered_count : Z
}.

(** What a method leaves behind: the log records and the calls that
    reached the storage. *)
Inductive event : Type :=
  | Logged (lvl : level) (text : string) (args : list string)
  | WroteCsv (rows : list Row)
  | SavedAsset (row : Z) (asset_id : string)
  | DeletedAsset (asset_id : string)
  | MessageBox (text : string).

(** A method: it may raise, it changes the attributes (the changes made
    before an exception stay), and it leaves events. *)
Definition T (A : Type) : Type :=
  EditableTable -> result A * EditableTable * list event.

Definition tret {A} (a : A) : T A := fun t => (Ok a, t, []).
Definition traise {A} (e : exn) : T A := fun t => (Raise e, t, []).
Definition tbind {A B} (m : T A) (k : A -> T B) : T B := fun t =>
  match m t with
  | (Ok a, t1, ev1) => let '(r, t2, ev2) := k a t1 in (r, t2, ev1 ++ ev2)
  | (Raise e, t1, ev1) => (Raise e, t1, ev1)
  end.
Definition get : T EditableTable := fun t => (Ok t, t, []).
Definition modify (f : EditableTable -> EditableTable) : T unit :=
  fun t => (Ok tt, f t, []).
Definition emit (e : event) : T unit := fun t => (Ok tt, t, [e]).
Definition lift {A} (r : result A) : T A := fun t => (r, t, []).

Definition set_filtered v t := mkTable (data t) v (model_df t) (changed_rows t)
  (deleted_asset_ids t) (data_source_type t) (pagination_enabled t) (current_page t)
  (total_pages t) (rows_per_page t) (must_save t) (must_rebuild t) (row_count t)
  (row_filtered_count t).
Definition set_data v t := mkTable v (filtered t) (model_df t) (changed_rows t)
  (deleted_asset_ids t) (data_source_type t) (pagination_enabled t) (current_page t)
  (total_pages t) (rows_per_page t) (must_save t) (must_rebuild t) (row_count t)
  (row_filtered_count t).
Definition set_model_df v t := mkTable (data t) (filtered t) v (changed_rows t)
  (deleted_asset_ids t) (data_source_type t) (pagination_enabled t) (current_page t)
  (total_pages t) (rows_per_page t) (must_save t) (must_rebuild t) (row_count t)
  (row_filtered_count t).
Definition set_changed_rows v t := mkTable (data t) (filtered t) (model_df t) v
  (deleted_asset_ids t) (data_source_type t) (pagination_enabled t) (current_page t)
  (total_pages t) (rows_per_page t) (must_save t) (must_rebuild t) (row_count t)
  (row_filtered_count t).
Definition set_deleted_asset_ids v t := mkTable (data t) (filtered t) (model_df t)
  (changed_rows t) v (data_source_type t) (pagination_enabled t) (current_page t)
  (total_pages t) (rows_per_page t) (must_save t) (must_rebuild t) (row_count t)
  (row_filtered_count t).
Definition set_current_page v t := mkTable (data t) (filtered t) (model_df t)
  (changed_rows t) (deleted_asset_ids t) (data_source_type t) (pagination_enabled t) v
  (total_pages t) (rows_per_page t) (must_save t) (must_rebuild t) (row_count t)
  (row_filtered_count t).
Definition set_total_pages v t := mkTable (data t) (filtered t) (model_df t)
  (changed_rows t) (deleted_asset_ids t) (data_source_type t) (pagination_enabled t)
  (current_page t) v (rows_per_page t) (must_save t) (must_rebuild t) (row_count t)
  (row_filtered_count t).
Definition set_must_save v t := mkTable (data t) (filtered t) (model_df t)
  (changed_rows t) (deleted_asset_ids t) (data_source_type t) (pagination_enabled t)
  (current_page t) (total_pages t) (rows_per_page t) v (must_rebuild t) (row_count t)
  (row_filtered_count t).
Definition set_must_rebuild v t := mkTable (data t) (filtered t) (model_df t)
  (changed_rows t) (deleted_asset_ids t) (data_source_type t) (pagination_enabled t)
  (current_page t) (total_pages t) (rows_per_page t) (must_save t) v (row_count t)
  (row_filtered_count t).
Definition set_row_counts c fc t := mkTable (data t) (filtered t) (model_df t)
  (changed_rows t) (deleted_asset_ids t) (data_source_type t) (pagination_enabled t)
  (current_page t) (total_pages t) (rows_per_page t) (must_save t) (must_rebuild t) c fc.

End EditableTable.

Arguments EditableTable : clear implicits.
Arguments event : clear implicits.
Arguments T : clear implicits.

Notation "'let!' x ':=' m 'in' k" := (tbind m (fun x => k))
  (at level 10, x name, m at level 100, k at level 200).

Section pagination.

Context {Row : Type}.
Local Abbreviation T := (Table.T Row).

(** [self.get_data_filtered().iloc[start:end]] *)
Definition iloc_slice (df : list Row) (start stop : Z) : result (list Row) :=
  Ok (slice df start stop).

(** [update_page]; the recolouring and the two GUI callbacks that close
    the method leave the attributes alone. *)
Definition update_page : T unit :=
  let! t := get in
  if pagination_enabled t then
    let data_count := Z.of_nat (length (filtered t)) in
    let! q := lift (floordiv (data_count - 1) (rows_per_page t)) in
    let! _ := modify (set_total_pages (q + 1)%Z) in
    let start := ((current_page t - 1) * rows_per_page t)%Z in
    let stop := (start + rows_per_page t)%Z in
    match iloc_slice (filtered t) start stop with
    | Ok page => modify (set_model_df page)
    | Raise IndexError =>
        let! t' := get in
        modify (set_current_page (total_pages t'))
    | Raise e => traise e
    end
  else
    let! _ := modify (set_model_df (filtered t)) in
    let! _ := modify (set_current_page 1%Z) in
    modify (set_total_pages 1%Z).

(** [update(reset_page)]; [mask] is what [self._filter_frame.create_mask()]
    answers at that moment ([None] also when no filter frame is set). *)
Definition update (reset_page : bool) (mask : option (Row -> bool)) : T unit :=
  let! _ := (if reset_page then modify (set_current_page 1%Z) else tret tt) in
  let! t := get in
  let! _ := modify (set_filtered
              (match mask with
               | Some m => List.filter m (data t)
               | None => data t
               end)) in
  let! t1 := get in
  let! _ := modify (set_row_counts (Z.of_nat (length (data t)))
                                   (Z.of_nat (length (filtered t1)))) in
  update_page.

Definition next_page (mask : option (Row -> bool)) : T unit :=
  let! t := get in
  if (current_page t <? total_pages t)%Z then
    let! _ := modify (set_current_page (current_page t + 1)%Z) in
    update false mask
  else tret tt.

Definition prev_page (mask : option (Row -> bool)) : T unit :=
  let! t := get in
  if (1 <? current_page t)%Z then
    let! _ := modify (set_current_page (current_page t - 1)%Z) in
    update false mask
  else tret tt.

Definition first_page (mask : option (Row -> bool)) : T unit :=
  let! _ := modify (set_current_page 1%Z) in
  update false mask.

Definition last_page (mask : option (Row -> bool)) : T unit :=
  let! t := get in
  let! _ := modify (set_current_page (total_pages t)) in
  update false mask.

(** What reading the data source gave [load_data]. *)
Inductive read_outcome : Type :=
  | ReadRows (rows : list Row) (first_cell_is_none : bool)
  | EmptyDataError.

(** [create_row(add_to_existing=False)]; [table_row] is the dummy row the
    registry or the database handler builds. *)
Definition create_row_replacing (table_row : list Row) : T unit :=
  let! _ := modify (set_must_rebuild true) in
  modify (set_data table_row).

(** The try block of [load_data]: what is stored in [self._data] for what
    [pd.read_csv] or the database handler gave. *)
Definition store_read (read : read_outcome) (table_row : list Row) : T unit :=
  let! t := get in
  match read with
  | ReadRows rows first_none =>
      let empty := (Z.of_nat (length rows) <=? 0)%Z || first_none in
      match data_source_type t with
      | FILE =>
          let! _ := (if empty then
                       let! _ := emit (Logged WARNING "Empty file. Adding a dummy row." []) in
                       create_row_replacing table_row
                     else tret tt) in
          modify (set_data rows)
      | SQLITE =>
          if empty then
            let! _ := emit (Logged WARNING "Empty file. Adding a dummy row." []) in
            create_row_replacing table_row
          else modify (set_data rows)
      end
  | EmptyDataError =>
      let! _ := emit (Logged WARNING "Empty file. Adding a dummy row." []) in
      create_row_replacing table_row
  end.

(** [load_data]. [go_on] is the answer of [valid_source_type], [read] the
    outcome of [pd.read_csv] or of the database handler. *)
Definition load_data (go_on : bool) (read : read_outcome) (table_row : list Row)
    : T bool :=
  let! _ := modify (set_must_rebuild false) in
  if negb go_on then tret false
  else
    let! _ := store_read read table_row in
    let! t1 := get in
    if (Z.of_nat (length (data t1)) <=? 0)%Z then
      let! _ := emit (Logged ERROR "No data found in data source" []) in
      tret false
    else
      let! q := lift (floordiv (Z.of_nat (length (data t1)) - 1) (rows_per_page t1)) in
      let! _ := modify (set_total_pages (q + 1)%Z) in
      tret true.

(** The navigation calls of the view, and a run of one of them. *)
Inductive navigation : Type :=
  | Update (reset_page : bool)
  | UpdatePage
  | NextPage
  | PrevPage
  | FirstPage
  | LastPage.

Definition navigate (op : navigation) (mask : option (Row -> bool)) : T unit :=
  match op with
  | Update reset_page => update reset_page mask
  | UpdatePage => update_page
  | NextPage => next_page mask
  | PrevPage => prev_page mask
  | FirstPage => first_page mask
  | LastPage => last_page mask
  end.

(** The rows that [update] keeps under a mask. *)
Definition masked (mask : option (Row -> bool)) (rows : list Row) : list Row :=
  match mask with
  | Some m => List.filter m rows
  | None => rows
  end.

(** The page counter agrees with the filtered rows and the current page
    is one of the pages. *)
Definition pages_consistent (t : EditableTable Row) : Prop :=
  total_pages t = ceil_div (Z.of_nat (length (filtered t))) (rows_per_page t)
  /\ (1 <= current_page t <= total_pages t)%Z.

End pagination.

Section tracking.

Context {Row : Type}.
Local Abbreviation T := (Table.T Row).

(** [row_index in self._changed_rows] *)
Definition in_rows (row_index : Z) (rows : list Z) : bool :=
  existsb (Z.eqb row_index) rows.

Definition in_ids (asset_id : string) (ids : list string) : bool :=
  existsb (String.eqb asset_id) ids.

Definition add_to_rows_to_save (row_index : Z) : T unit :=
  let! t := get in
  if (row_index <? 0)%Z || (Z.of_nat (length (data t)) <? row_index)%Z
     || in_rows row_index (changed_rows t)
  then tret tt
  else modify (set_changed_rows (changed_rows t ++ [row_index])).

Definition clear_rows_to_save : T unit := modify (set_changed_rows []).

Definition add_to_asset_ids_to_delete (asset_id : string) : T unit :=
  let! t := get in
  if in_ids asset_id (deleted_asset_ids t) then tret tt
  else modify (set_deleted_asset_ids (deleted_asset_ids t ++ [asset_id])).

Definition clear_asset_ids_to_delete : T unit := modify (set_deleted_asset_ids []).

(** [get_row(row_index, return_as_dict=True)] *)
Definition get_row (row_index : Z) : T (option Row) :=
  let! t := get in
  match iloc (filtered t) row_index with
  | Ok record => tret (Some record)
  | Raise IndexError => tret None
  | Raise e => traise e
  end.

(** No duplicate and no negative row index, no duplicate asset_id. *)
Definition tracking_ok (t : EditableTable Row) : Prop :=
  NoDup (changed_rows t) /\ Forall (fun i => 0 <= i)%Z (changed_rows t)
  /\ NoDup (deleted_asset_ids t).

(** The calls that fill the two lists, and a run of a sequence of them. *)
Inductive tracking_call : Type :=
  | AddRow (row_index : Z)
  | AddDelete (asset_id : string).

Definition run_call (c : tracking_call) : T unit :=
  match c with
  | AddRow row_index => add_to_rows_to_save row_index
  | AddDelete asset_id => add_to_asset_ids_to_delete asset_id
  end.

Fixpoint run_calls (cs : list tracking_call) : T unit :=
  match cs with
  | [] => tret tt
  | c :: rest => let! _ := run_call c in run_calls rest
  end.

End tracking.

Section save.

Context {Row SqlRow : Type}.
Local Abbreviation T := (Table.T Row).

(** The storage, as [save_data] calls it: [data.to_csv] answers the
    exception it raises, if any; [convert_csv_row_to_sql_row] runs outside
    the try block; [save_ue_asset] stands for the body of the try block
    ([init_from_dict], the handler's [save_ue_asset], reading back the
    asset_id) and [delete_asset] for the handler's method. *)
Variable to_csv : list Row -> option exn.
Variable convert_csv_row_to_sql_row : Row -> result SqlRow.
Variable save_ue_asset : SqlRow -> result string.
Variable delete_asset : string -> option exn.

(** [except (KeyError, ValueError, AttributeError)] *)
Definition caught (e : exn) : bool :=
  match e with
  | KeyError | ValueError | AttributeError => true
  | _ => false
  end.

Definition exn_name (e : exn) : string :=
  match e with
  | IndexError => "IndexError" | TypeError => "TypeError" | KeyError => "KeyError"
  | ValueError => "ValueError" | AttributeError => "AttributeError"
  | OSError => "OSError" | ZeroDivisionError => "ZeroDivisionError"
  | OperationalError => "OperationalError"
  end.

(** The warnings of the two loops. *)
Definition save_warning (row : Z) (e : exn) : event Row :=
  Logged WARNING "Unable to save UE_asset for row to the database."
    [pretty row; exn_name e].

Definition delete_warning (asset_id : string) (e : exn) : event Row :=
  Logged WARNING "Unable to delete asset_id to the database." [asset_id; exn_name e].

(** [for row in self._changed_rows: ...] *)
Fixpoint save_changed_rows (rows : list Z) : T unit :=
  match rows with
  | [] => tret tt
  | row :: rest =>
      let! row_data := get_row row in
      match row_data with
      | None => save_changed_rows rest
      | Some row_data =>
          let! asset_data := lift (convert_csv_row_to_sql_row row_data) in
          let! _ :=
            (match save_ue_asset asset_data with
             | Ok asset_id =>
                 let! _ := emit (SavedAsset row asset_id) in
                 emit (Logged INFO "UE_asset for row has been saved to the database"
                         [asset_id; pretty row])
             | Raise e =>
                 if caught e then emit (save_warning row e)
                 else traise e
             end) in
          save_changed_rows rest
      end
  end.

(** [for asset_id in self._deleted_asset_ids: ...] *)
Fixpoint delete_marked_assets (ids : list string) : T unit :=
  match ids with
  | [] => tret tt
  | asset_id :: rest =>
      let! _ :=
        (match delete_asset asset_id with
         | None =>
             let! _ := emit (DeletedAsset asset_id) in
             emit (Logged INFO "row has been deleted from the database" [asset_id])
         | Some e =>
             if caught e then emit (delete_warning asset_id e)
             else traise e
         end) in
      delete_marked_assets rest
  end.

(** [save_data(source_type)] *)
Definition save_data (source_type : option DataSourceType) : T unit :=
  let! t := get in
  let source_type := default (data_source_type t) source_type in
  let! _ := modify (set_model_df (data t)) in
  let! _ :=
    (match source_type with
     | FILE =>
         match to_csv (data t) with
         | None => emit (WroteCsv (data t))
         | Some e => traise e
         end
     | SQLITE =>
         let! _ := save_changed_rows (changed_rows t) in
         delete_marked_assets (deleted_asset_ids t)
     end) in
  let! _ := clear_rows_to_save in
  let! _ := clear_asset_ids_to_delete in
  let! _ := modify (set_must_save false) in
  emit (MessageBox "Changed data has been saved").

(** A failure on a row, or on a deletion, is one the loop catches. *)
Definition row_failure_is_caught (t : EditableTable Row) (row : Z) : bool :=
  match iloc (filtered t) row with
  | Ok row_data =>
      match convert_csv_row_to_sql_row row_data with
      | Ok asset_data =>
          match save_ue_asset asset_data with
          | Ok _ => true
          | Raise e => caught e
          end
      | Raise _ => false
      end
  | Raise _ => true
  end.

Definition delete_failure_is_caught (asset_id : string) : bool :=
  match delete_asset asset_id with
  | None => true
  | Some e => caught e
  end.

End save.

End Table.

(** ** Sample data for the examples

    Stand-ins for the imported pieces, used where a statement is run on
    concrete data. The columns are some of those that
    [create_asset_from_data] lists, in its order. *)

Module Demo.

Import Merge ListAssets Table.

Definition fields : list string :=
  ["Asset_id"; "App name"; "Category"; "Price"; "Old price"; "Comment"; "Must buy";
   "Origin"].

(** A registry in which only the comment and the must-buy flag are
    preserved. *)
Definition preserved_user (f : string) : bool :=
  bool_decide (f ∈ ["Comment"; "Must buy"]).

(** A registry in which the old price and the 'Origin' list are preserved
    as well. *)
Definition preserved_all (f : string) : bool :=
  bool_decide (f ∈ ["Old price"; "Comment"; "Must buy"; "Origin"]).

Definition empty_cell : string := "None".

(** The text of a boolean is [True] or [False]. *)
Definition str_is_bool (s : string) : bool := bool_decide (s ∈ ["True"; "False"]).
Definition str_to_bool (s : string) : bool := bool_decide (s = "True").

Definition digit_of (c : ascii) : option Z :=
  let n := Z.of_nat (nat_of_ascii c) in
  if ((48 <=? n) && (n <=? 57))%Z then Some (n - 48)%Z else None.

Fixpoint digits_value (acc : Z) (s : string) : option Z :=
  match s with
  | EmptyString => Some acc
  | String c s' =>
      match digit_of c with
      | Some d => digits_value (10 * acc + d)%Z s'
      | None => None
      end
  end.

(** Unsigned decimal texts with at most one point are read exactly; any
    other text gives 0.0. *)
Definition convert_to_float (v : pyval) : float :=
  match v with
  | VFloat x => x
  | VInt z => float_of_int z
  | VBool b => if b then 1%float else 0%float
  | VNone => 0%float
  | VStr s =>
      match split "."%char s with
      | [a] =>
          match digits_value 0 a with
          | Some n => float_of_int n
          | None => 0%float
          end
      | [a; b] =>
          match digits_value 0 (a +:+ b) with
          | Some n => (float_of_int n / float_of_int (10 ^ Z.of_nat (String.length b)))%float
          | None => 0%float
          end
      | _ => 0%float
      end
  end.

(** The whole number a float holds, if it holds one. *)
Definition whole (x : float) : option Z :=
  match Prim2SF x with
  | S754_zero _ => Some 0%Z
  | S754_finite false m e =>
      if (0 <=? e)%Z then Some (Z.pos m * 2 ^ e)%Z
      else if (Z.pos m mod 2 ^ (- e) =? 0)%Z then Some (Z.pos m / 2 ^ (- e))%Z
      else None
  | _ => None
  end.

(** [repr] of a float that holds a whole number, as the prices of the
    examples do; the empty text otherwise. *)
Definition float_repr (x : float) : string :=
  match whole x with
  | Some z => pretty z +:+ ".0"
  | None => ""
  end.

Definition merge (is_preserved : string -> bool) :=
  update_and_merge_csv_record_data fields is_preserved empty_cell
    str_is_bool str_to_bool convert_to_float.

(** The row of the scenario of the specification, and the record fetched
    for the same asset. *)
Definition row_A1 : file_row :=
  list_to_map
    [("Asset_id", Some "A1"); ("App name", Some "AssetV5"); ("Category", Some "Props");
     ("Price", Some "10.0"); ("Old price", Some "0.0"); ("Comment", Some "nice");
     ("Must buy", Some "True"); ("Origin", Some "folderX")].

Definition file_A1 : gmap string file_row := {[ "A1" := row_A1 ]}.

Definition incoming_A1 : list (string * pyval) :=
  [("Asset_id", VStr "A1"); ("App name", VStr "AssetV5"); ("Category", VStr "Plugins");
   ("Price", VFloat 8%float); ("Old price", VFloat 0%float); ("Comment", VStr "");
   ("Must buy", VBool false); ("Origin", VStr "folderY")].

(** What the merge of that record into that row returns when only the user
    columns are preserved, and what merging the record again, into this
    output read back from the file, returns. *)
Definition merged_A1 : list pyval :=
  [VStr "A1"; VStr "AssetV5"; VStr "Plugins"; VFloat 8%float; VFloat 10%float;
   VStr "nice"; VBool true; VStr "folderX,folderY"].

Definition merged_again_A1 : list pyval :=
  [VStr "A1"; VStr "AssetV5"; VStr "Plugins"; VFloat 8%float; VFloat 8%float;
   VStr "nice"; VBool true; VStr "folderX,folderY"].

Definition file_merged_A1 : gmap string file_row :=
  <["A1" := reread fields float_repr merged_A1]> file_A1.

(** The same row saved with empty-cell markers in the category, the two
    prices and the origin. *)
Definition row_blank : file_row :=
  list_to_map
    [("Asset_id", Some "A1"); ("App name", Some "AssetV5"); ("Category", Some "None");
     ("Price", Some "None"); ("Old price", Some "None"); ("Comment", Some "nice");
     ("Must buy", Some "True"); ("Origin", Some "None")].

Definition file_blank : gmap string file_row := {[ "A1" := row_blank ]}.

(** The same row with a folder listed twice. *)
Definition row_twice : file_row :=
  list_to_map
    [("Asset_id", Some "A1"); ("App name", Some "AssetV5"); ("Category", Some "Props");
     ("Price", Some "10.0"); ("Old price", Some "0.0"); ("Comment", Some "nice");
     ("Must buy", Some "True"); ("Origin", Some "folderX,folderX")].

Definition file_twice : gmap string file_row := {[ "A1" := row_twice ]}.

(** A row with one key too many. *)
Definition row_long : file_row := <["Extra" := Some "x"]> row_A1.
Definition file_long : gmap string file_row := {[ "A1" := row_long ]}.

(** Three catalog items, two of them versions of the same asset. *)
Definition item_v4 : Game :=
  {| app_name := "AssetV4"; app_title := "Asset";
     asset_infos := {[ "Windows" := {| asset_id := "A1" |} ]} |}.
Definition item_v5 : Game :=
  {| app_name := "AssetV5"; app_title := "Asset";
     asset_infos := {[ "Windows" := {| asset_id := "A1" |} ]} |}.
Definition item_other : Game :=
  {| app_name := "Other"; app_title := "Other thing"; asset_infos := ∅ |}.

Definition values (item : Game) (asset_id : string) : option (list pyval) :=
  Some [VStr asset_id; VStr (app_name item); VStr "Props"; VFloat 0%float;
        VFloat 0%float; VStr ""; VBool false; VStr "Marketplace"].

(** The same catalog when building the tuple of the fifth version raises the
    TypeError that [create_asset_from_data] catches. *)
Definition values_v5_fails (item : Game) (asset_id : string) : option (list pyval) :=
  if String.eqb (app_name item) "AssetV5" then None else values item asset_id.

(** A view of a hundred rows on its third and last page. *)
Definition view : EditableTable nat :=
  mkTable (seq 0 100) (seq 0 100) [] [] [] FILE true 3 3 36 false false 100 100.

(** The same rows under a filter that keeps ten of them, on the only page. *)
Definition filtered_view : EditableTable nat :=
  mkTable (seq 0 100) (seq 0 10) [] [] [] FILE true 1 1 36 false false 100 10.

(** A database view with three changed rows and two assets to delete; the row
    "bad" cannot be saved and the asset "gone" cannot be deleted. *)
Definition db_view : EditableTable string :=
  mkTable ["a"; "bad"; "c"] ["a"; "bad"; "c"] [] [0; 1; 2]%Z ["x"; "gone"] SQLITE
    true 1 1 36 true false 3 3.

Definition file_view : EditableTable string :=
  mkTable ["a"; "bad"; "c"] ["a"; "bad"; "c"] [] [0; 1; 2]%Z ["x"; "gone"] FILE
    true 1 1 36 true false 3 3.

Definition to_csv_ok (rows : list string) : option exn := None.
Definition to_csv_full_disk (rows : list string) : option exn := Some OSError.
Definition convert_csv_row_to_sql_row (row : string) : result string := Ok row.
Definition save_ue_asset (row : string) : result string :=
  if String.eqb row "bad" then Raise KeyError else Ok row.
Definition delete_asset (asset_id : string) : option exn :=
  if String.eqb asset_id "gone" then Some ValueError else None.

(** The database is locked when the row "bad" is written. *)
Definition save_ue_asset_locked (row : string) : result string :=
  if String.eqb row "bad" then Raise OperationalError else Ok row.

End Demo.

(** * Properties *)

(** ** Raising computations, [split] and [join] *)

Module PyFacts.

Lemma bind_Ok {A B} (m : M A) (k : A -> M B) b lg :
  bind m k = (Ok b, lg) ->
  exists a l1 l2, m = (Ok a, l1) /\ k a = (Ok b, l2) /\ lg = l1 ++ l2.
Proof.
  unfold bind. destruct m as [[a|e] l1]; [|discriminate].
  destruct (k a) as [r l2] eqn:Hk. intros [= -> <-]. eauto 6.
Qed.

Lemma setitem_Ok {A} (l : list A) i x l' lg :
  setitem l i x = (Ok l', lg) <-> i < length l /\ l' = <[i:=x]> l /\ lg = [].
Proof.
  unfold setitem. destruct (decide (i < length l)); cbn; split.
  - intros [= <- <-]. done.
  - intros (_ & -> & ->). done.
  - discriminate.
  - intros (? & _). lia.
Qed.

Lemma mapM_as_str_VStr (l : list string) : mapM as_str (VStr <$> l) = Some l.
Proof. apply mapM_Some. induction l; constructor; auto. Qed.

Lemma join_strs sep (l : list string) : join sep (VStr <$> l) = (Ok (join_str sep l), []).
Proof. unfold join. by rewrite mapM_as_str_VStr. Qed.

Lemma join_log sep l r lg : join sep l = (r, lg) -> lg = [].
Proof. unfold join. destruct (mapM _ _); intros [= _ <-]; done. Qed.

Lemma contains_elem_of (l : list string) (s : string) :
  contains l (VStr s) = bool_decide (s ∈ l).
Proof.
  unfold contains. induction l as [|x l IH]; cbn.
  - rewrite bool_decide_eq_false_2; [done|]. apply not_elem_of_nil.
  - rewrite IH. destruct (decide (s = x)) as [->|Hne].
    + rewrite (bool_decide_eq_true_2 (x = x)) by done. cbn.
      rewrite bool_decide_eq_true_2; [done|]. by left.
    + rewrite (bool_decide_eq_false_2 (s = x)) by done. cbn.
      apply bool_decide_ext. rewrite elem_of_cons. tauto.
  Qed.

Lemma append_nil_l (s : string) : "" +:+ s = s.
Proof. reflexivity. Qed.

Lemma append_cons c (a b : string) : String c a +:+ b = String c (a +:+ b).
Proof. reflexivity. Qed.

Lemma split_not_nil sep s : split sep s <> [].
Proof.
  destruct s as [|c s]; cbn -[Ascii.eqb]; [done|].
  destruct (Ascii.eqb c sep); [done|]. by destruct (split sep s).
Qed.

(** Splitting at a separator that joins two strs. *)
Lemma split_app sep (a b : string) :
  split sep (a +:+ String sep b) = split sep a ++ split sep b.
Proof.
  induction a as [|c a IH]; rewrite ?append_nil_l, ?append_cons; cbn -[Ascii.eqb].
  - by rewrite Ascii.eqb_refl.
  - destruct (Ascii.eqb c sep); [by rewrite IH|].
    rewrite IH. pose proof (split_not_nil sep a).
    by destruct (split sep a).
Qed.

(** A token holds no separator: splitting it again changes nothing. *)
Lemma split_tokens_single sep s t : t ∈ split sep s -> split sep t = [t].
Proof.
  revert t. induction s as [|c s IH]; cbn -[Ascii.eqb]; intros t Ht.
  - apply list_elem_of_singleton in Ht as ->. done.
  - destruct (Ascii.eqb c sep) eqn:Hc.
    + apply elem_of_cons in Ht as [->|Ht]; [done|by apply IH].
    + pose proof (split_not_nil sep s).
      destruct (split sep s) as [|t0 ts] eqn:Hs; [done|].
      apply elem_of_cons in Ht as [->|Ht].
      * cbn -[Ascii.eqb]. rewrite Hc. rewrite (IH t0) by (by left). done.
      * apply IH. by right.
Qed.

Lemma split_join (l : list string) :
  l <> [] -> split ","%char (join_str "," l) = concat (split ","%char <$> l).
Proof.
  induction l as [|s l IH]; [done|]. intros _.
  destruct l as [|s' l].
  - cbn. by rewrite app_nil_r.
  - change (join_str "," (s :: s' :: l)) with (s +:+ String ","%char (join_str "," (s' :: l))).
    rewrite split_app, IH by done. reflexivity.
Qed.

Lemma concat_split_single (l : list string) :
  Forall Merge.single_token l -> concat (split ","%char <$> l) = l.
Proof.
  induction 1 as [|s l Hs _ IH]; [done|]. cbn. rewrite Hs, IH. done.
Qed.

Lemma split_all_single s : Forall Merge.single_token (split ","%char s).
Proof. apply Forall_forall. intros t Ht. by eapply split_tokens_single. Qed.

(** Joining the tokens of a str gives the str back. *)
Lemma join_split s : join_str "," (split ","%char s) = s.
Proof.
  induction s as [|c s IH]; [done|]. cbn -[Ascii.eqb].
  destruct (Ascii.eqb c ",") eqn:Hc.
  - apply Ascii.eqb_eq in Hc as ->.
    pose proof (split_not_nil ","%char s).
    destruct (split ","%char s) as [|t ts] eqn:Hs; [done|].
    change (join_str "," ("" :: t :: ts)) with ("" +:+ "," +:+ join_str "," (t :: ts)).
    rewrite IH. done.
  - pose proof (split_not_nil ","%char s).
    destruct (split ","%char s) as [|t ts] eqn:Hs; [done|].
    destruct ts as [|t' ts].
    + cbn in *. by rewrite IH.
    + change (join_str "," (String c t :: t' :: ts))
        with (String c (t +:+ "," +:+ join_str "," (t' :: ts))).
      change (join_str "," (t :: t' :: ts)) with (t +:+ "," +:+ join_str "," (t' :: ts)) in IH.
      by rewrite IH.
Qed.

Lemma union_origin_VStr value s :
  Merge.union_origin value (VStr s) = VStr <$> Merge.union_strs value s.
Proof.
  unfold Merge.union_origin, Merge.union_strs. rewrite contains_elem_of.
  case_bool_decide; [done|]. by rewrite fmap_app.
Qed.

(** The tokens of the joined union. *)
Lemma tokens_of_union value inc :
  split ","%char (join_str "," (Merge.union_strs value inc)) =
    if bool_decide (inc ∈ split ","%char value)
    then split ","%char value
    else split ","%char value ++ split ","%char inc.
Proof.
  unfold Merge.union_strs. case_bool_decide.
  - rewrite split_join by apply split_not_nil.
    apply concat_split_single, split_all_single.
  - rewrite split_join.
    + rewrite fmap_app, concat_app. cbn. rewrite app_nil_r.
      by rewrite concat_split_single by apply split_all_single.
    + pose proof (split_not_nil ","%char value). by destruct (split _ value).
Qed.

End PyFacts.

(** ** The merge of one record *)

Module MergeFacts.

Import Merge PyFacts.

Section one_column.
Context (is_preserved : string -> bool) (empty_cell : string)
        (str_is_bool str_to_bool : string -> bool) (convert_to_float : pyval -> float).

Local Abbreviation merge_field :=
  (Merge.merge_field is_preserved empty_cell str_is_bool str_to_bool convert_to_float).
Local Abbreviation merge_fields :=
  (Merge.merge_fields is_preserved empty_cell str_is_bool str_to_bool convert_to_float).
Local Abbreviation merged_value :=
  (Merge.merged_value is_preserved empty_cell str_is_bool str_to_bool).
Local Abbreviation captures_price := (Merge.captures_price empty_cell).
Local Abbreviation coerce := (Merge.coerce str_is_bool str_to_bool).

(** A column missing from the row of the file: a warning, nothing else. *)
Lemma merge_field_missing aid item st i f :
  existing_cell item f = None ->
  exists lg, merge_field aid item st i f = (Ok st, lg).
Proof.
  unfold existing_cell, Merge.merge_field. intros ->. cbn. eauto.
Qed.

(** An iteration on a column of the file, read as a function of the cell
    and of what the record holds there. *)
Lemma merge_field_present aid item st i f value incoming :
  existing_cell item f = Some value ->
  csv_record st !! i = Some incoming ->
  merge_field aid item st i f =
    bind (merged_value f value incoming) (fun new =>
      ret (if captures_price item f
           then Locals (<[i:=new]> (csv_record st)) i (convert_to_float incoming)
                  (convert_to_float (VStr value))
           else set_csv_record st (<[i:=new]> (csv_record st)))).
Proof.
  intros Hcell Hinc.
  assert (Hlt : i < length (csv_record st)) by (eapply lookup_lt_Some; eauto).
  unfold Merge.merge_field, Merge.merged_value, Merge.captures_price.
  unfold existing_cell in *. rewrite Hcell.
  case_bool_decide as Hm; cbn.
  - unfold setitem. destruct (decide _); [|lia]. cbn.
    rewrite andb_false_r. reflexivity.
  - rewrite andb_true_r.
    case_bool_decide as Hp; cbn.
    + unfold getitem. rewrite Hinc. cbn.
      destruct (is_preserved f); cbn.
      * unfold setitem; cbn. destruct (decide _); [|lia]. cbn. reflexivity.
      * rewrite list_insert_id by done. reflexivity.
    + case_bool_decide as Ho; cbn.
      * unfold getitem. rewrite Hinc. cbn.
        unfold union_origin.
        unfold join. destruct (mapM _ _) as [ss|]; cbn; [|reflexivity].
        unfold setitem. destruct (decide _); [|lia]. cbn.
        destruct (is_preserved f); cbn.
        -- rewrite length_insert. destruct (decide _); [|lia]. cbn.
           rewrite list_insert_insert_eq. destruct st; reflexivity.
        -- destruct st; reflexivity.
      * destruct (is_preserved f); cbn.
        -- unfold setitem. destruct (decide _); [|lia]. cbn. destruct st; reflexivity.
        -- rewrite list_insert_id by done. destruct st; reflexivity.
Qed.

Lemma merged_value_log f v inc r lg : merged_value f v inc = (r, lg) -> lg = [].
Proof.
  unfold Merge.merged_value. case_bool_decide; cbn; [by intros [= _ <-]|].
  case_bool_decide; cbn; [by intros [= _ <-]|].
  case_bool_decide; cbn; [|by intros [= _ <-]].
  destruct (join _ _) as [[j|e] lj] eqn:Hj; cbn; apply join_log in Hj as ->;
    by intros [= _ <-].
Qed.

Lemma merged_value_total f v inc :
  (f = "Origin" -> exists s, inc = VStr s) ->
  exists new, merged_value f v inc = (Ok new, []).
Proof.
  intros Ho. unfold Merge.merged_value. case_bool_decide; cbn; [eauto|].
  case_bool_decide; cbn; [eauto|].
  case_bool_decide as Hf; cbn; [|eauto].
  destruct (Ho Hf) as [s ->]. rewrite union_origin_VStr, join_strs. cbn. eauto.
Qed.

(** What the loop leaves in a column whose cell of the file is present and
    is not the marker, the union of 'Origin' apart. *)
Lemma merged_value_plain f v inc :
  v <> empty_cell -> f <> "Origin" \/ is_preserved f = true ->
  (f = "Origin" -> exists s, inc = VStr s) ->
  merged_value f v inc = (Ok (if is_preserved f then coerce v else inc), []).
Proof.
  intros Hv Hf Hs. unfold Merge.merged_value. rewrite bool_decide_eq_false_2 by done.
  case_bool_decide; [reflexivity|]. case_bool_decide as Ho; [|reflexivity].
  destruct Hf as [|Hp]; [done|]. destruct (Hs Ho) as [s ->].
  rewrite union_origin_VStr, join_strs. cbn. by rewrite Hp.
Qed.

Lemma merged_value_origin v inc :
  v <> empty_cell -> is_preserved "Origin" = false ->
  merged_value "Origin" v (VStr inc) =
    (Ok (VStr (join_str "," (union_strs v inc))), []).
Proof.
  intros Hv Hp. unfold Merge.merged_value. rewrite bool_decide_eq_false_2 by done.
  rewrite bool_decide_eq_false_2 by done. rewrite bool_decide_eq_true_2 by done.
  rewrite union_origin_VStr, join_strs. cbn. by rewrite Hp.
Qed.

Lemma merged_value_marker f inc : merged_value f empty_cell inc = (Ok (VStr ""), []).
Proof. unfold Merge.merged_value. by rewrite bool_decide_eq_true_2. Qed.

Lemma captures_price_true item f :
  captures_price item f = true <->
  f = "Price" /\ exists v, existing_cell item f = Some v /\ v <> empty_cell.
Proof.
  unfold Merge.captures_price. destruct (existing_cell item f) as [v|].
  - rewrite andb_true_iff, negb_true_iff, bool_decide_eq_true, bool_decide_eq_false.
    split; [intros [-> ?]; eauto|]. intros [-> (v' & [= <-] & ?)]. done.
  - split; [discriminate|]. intros [_ (v & ? & _)]. discriminate.
Qed.

(** The loop, column by column: what a run that returns has done. *)
Lemma merge_fields_Ok aid item flds : forall i st st' lg,
  i + length flds <= length (csv_record st) ->
  merge_fields aid item i flds st = (Ok st', lg) ->
  length (csv_record st') = length (csv_record st)
  /\ (forall j, j < i \/ i + length flds <= j ->
        csv_record st' !! j = csv_record st !! j)
  /\ (forall k f inc, flds !! k = Some f -> csv_record st !! (i + k) = Some inc ->
        match existing_cell item f with
        | None => csv_record st' !! (i + k) = Some inc
        | Some v => exists new, merged_value f v inc = (Ok new, [])
                              /\ csv_record st' !! (i + k) = Some new
        end)
  /\ (captures_price item "Price" = true -> "Price" ∈ flds ->
        exists k v, flds !! k = Some "Price" /\ price_index st' = i + k
                    /\ existing_cell item "Price" = Some v
                    /\ old_price st' = convert_to_float (VStr v))
  /\ (captures_price item "Price" = false \/ "Price" ∉ flds ->
        price_index st' = price_index st /\ old_price st' = old_price st).
Proof.
  induction flds as [|f rest IH]; intros i st st' lg Hlen Hrun; cbn in *.
  - injection Hrun as <- <-. repeat split; auto.
    + intros k f inc Hk. rewrite lookup_nil in Hk. discriminate.
    + intros _ Hin. by apply elem_of_nil in Hin.
  - apply bind_Ok in Hrun as (st1 & l1 & l2 & Hstep & Hrest & ->).
    assert (Hi : i < length (csv_record st)) by lia.
    destruct (lookup_lt_is_Some_2 _ _ Hi) as [inc0 Hinc0].
    assert (Hfirst :
      length (csv_record st1) = length (csv_record st)
      /\ (forall j, j <> i -> csv_record st1 !! j = csv_record st !! j)
      /\ match existing_cell item f with
         | None => csv_record st1 !! i = Some inc0
         | Some v => exists new, merged_value f v inc0 = (Ok new, [])
                               /\ csv_record st1 !! i = Some new
         end
      /\ (captures_price item f = true ->
            price_index st1 = i /\
            exists v, existing_cell item f = Some v
                      /\ old_price st1 = convert_to_float (VStr v))
      /\ (captures_price item f = false ->
            price_index st1 = price_index st /\ old_price st1 = old_price st)).
    { destruct (existing_cell item f) as [v|] eqn:Hcell.
      - rewrite (merge_field_present aid item st i f v inc0 Hcell Hinc0) in Hstep.
        apply bind_Ok in Hstep as (new & m1 & m2 & Hnew & Hret & ->).
        pose proof (merged_value_log _ _ _ _ _ Hnew) as Hm1; subst m1.
        injection Hret as <- <-.
        destruct (captures_price item f) eqn:Hcap; cbn.
        + rewrite length_insert. repeat split; auto.
          * intros j Hj. by rewrite list_lookup_insert_ne.
          * exists new. split; [done|]. by rewrite list_lookup_insert_eq.
          * eauto.
          * discriminate.
          * discriminate.
        + rewrite length_insert. repeat split; auto.
          * intros j Hj. by rewrite list_lookup_insert_ne.
          * exists new. split; [done|]. by rewrite list_lookup_insert_eq.
          * discriminate.
          * discriminate.
      - destruct (merge_field_missing aid item st i f Hcell) as [lg' Hm].
        rewrite Hm in Hstep. injection Hstep as <- <-.
        assert (captures_price item f = false) as Hcf
          by (unfold Merge.captures_price; by rewrite Hcell).
        repeat split; auto; congruence. }
    destruct Hfirst as (Hl1 & Hother1 & Hcell1 & Hcap1 & Hnocap1).
    destruct (IH (S i) st1 st' l2) as (Hl & Hout & Hcols & Hcap & Hnocap);
      [lia | done |].
    split; [congruence|]. split; [|split; [|split]].
    + intros j Hj. rewrite Hout by lia. apply Hother1. lia.
    + intros [|k] g inc Hk Hinc; cbn in Hk.
      * injection Hk as <-. rewrite Nat.add_0_r in *.
        rewrite Hout by lia. rewrite Hinc0 in Hinc. injection Hinc as <-. done.
      * replace (i + S k) with (S i + k) in * by lia.
        apply (Hcols k g inc Hk). rewrite Hother1 by lia. done.
    + intros Hc Hin.
      destruct (decide ("Price" ∈ rest)) as [Hr|Hr].
      * destruct (Hcap Hc Hr) as (k & v & Hk & Hpi & Hv & Hop).
        exists (S k), v. cbn. repeat split; auto. lia.
      * assert (f = "Price") as ->.
        { apply elem_of_cons in Hin as [Hin|Hin]; [done|by destruct Hr]. }
        destruct (Hnocap (or_intror Hr)) as [Hpi Hop].
        destruct (Hcap1 Hc) as (Hpi1 & v & Hv & Hop1).
        exists 0, v. cbn. repeat split; auto; [lia|congruence].
    + intros Hno.
      assert (captures_price item "Price" = false \/ "Price" ∉ rest) as Hno'.
      { destruct Hno as [Hno|Hno]; [by left|right].
        intros Hr. apply Hno. by right. }
      destruct (Hnocap Hno') as [Hpi Hop].
      assert (captures_price item f = false) as Hcf.
      { destruct (captures_price item f) eqn:Hcf; [|done].
        apply captures_price_true in Hcf as Hcf'. destruct Hcf' as [-> _].
        destruct Hno as [Hno|Hno]; [congruence|]. exfalso. apply Hno. by left. }
      destruct (Hnocap1 Hcf). split; congruence.
Qed.

(** The loop returns when the record is long enough and the incoming
    'Origin' is a str. *)
Lemma merge_fields_total aid item flds : forall i st,
  i + length flds <= length (csv_record st) ->
  (forall k inc, flds !! k = Some "Origin" -> csv_record st !! (i + k) = Some inc ->
     exists s, inc = VStr s) ->
  exists st' lg, merge_fields aid item i flds st = (Ok st', lg).
Proof.
  induction flds as [|f rest IH]; intros i st Hlen Horigin; cbn in *.
  - eauto.
  - assert (Hi : i < length (csv_record st)) by lia.
    destruct (lookup_lt_is_Some_2 _ _ Hi) as [inc0 Hinc0].
    assert (exists st1 l1, merge_field aid item st i f = (Ok st1, l1)
              /\ length (csv_record st1) = length (csv_record st)
              /\ forall j, j <> i -> csv_record st1 !! j = csv_record st !! j)
      as (st1 & l1 & Hstep & Hl1 & Hother).
    { destruct (existing_cell item f) as [v|] eqn:Hcell.
      - rewrite (merge_field_present aid item st i f v inc0 Hcell Hinc0).
        destruct (merged_value_total f v inc0) as [new Hnew].
        { intros ->. apply (Horigin 0 inc0); [done|]. by rewrite Nat.add_0_r. }
        rewrite Hnew. cbn. eexists _, _. split; [reflexivity|].
        destruct (captures_price item f); cbn; rewrite length_insert;
          split; auto; intros j Hj; by rewrite list_lookup_insert_ne.
      - destruct (merge_field_missing aid item st i f Hcell) as [lg' Hm].
        rewrite Hm. eauto. }
    destruct (IH (S i) st1) as (st' & l2 & Hrest); [lia| |].
    { intros k inc Hk Hinc. apply (Horigin (S k) inc); [done|].
      replace (i + S k) with (S i + k) by lia. rewrite <- Hother by lia. done. }
    rewrite Hstep. cbn. rewrite Hrest. eauto.
Qed.

End one_column.

Section whole_record.
Context (fields : list string) (is_preserved : string -> bool) (empty_cell : string)
        (str_is_bool str_to_bool : string -> bool) (convert_to_float : pyval -> float).

Local Abbreviation merge_fields :=
  (Merge.merge_fields is_preserved empty_cell str_is_bool str_to_bool convert_to_float).
Local Abbreviation merged_value :=
  (Merge.merged_value is_preserved empty_cell str_is_bool str_to_bool).
Local Abbreviation captures_price := (Merge.captures_price empty_cell).
Local Abbreviation coerce := (Merge.coerce str_is_bool str_to_bool).
Local Abbreviation merge :=
  (update_and_merge_csv_record_data fields is_preserved empty_cell str_is_bool
     str_to_bool convert_to_float).
Local Abbreviation start asset_data ndv :=
  (Locals (asset_data.*2) 0 (float_of_int ndv) (float_of_int ndv)).

(** The function, for an asset found in the file with the expected number
    of keys: the loop, then the write of the old price. *)
Lemma merge_unfold k asset_data items item ndv :
  items !! k = Some item -> item <> ∅ -> size item = length fields ->
  merge k asset_data items ndv =
    bind (merge_fields k item 0 fields (start asset_data ndv))
      (fun st => if decide (0 < price_index st)
                 then setitem (csv_record st) (price_index st + 1) (VFloat (old_price st))
                 else ret (csv_record st)).
Proof.
  intros Hk Hne Hsz. unfold update_and_merge_csv_record_data. rewrite Hk.
  rewrite bool_decide_eq_false_2 by done.
  rewrite bool_decide_eq_false_2 by (intros ?; done). reflexivity.
Qed.

(** After the loop [price_index] is 0 or the index of a 'Price' column whose
    cell of the file was recorded. *)
Lemma price_index_after k item st st' lg :
  length fields <= length (csv_record st) ->
  price_index st = 0 ->
  merge_fields k item 0 fields st = (Ok st', lg) ->
  (price_index st' = 0 /\ old_price st' = old_price st)
  \/ (exists p v, fields !! p = Some "Price" /\ price_index st' = p
                 /\ existing_cell item "Price" = Some v /\ v <> empty_cell
                 /\ old_price st' = convert_to_float (VStr v)).
Proof.
  intros Hlen H0 Hrun.
  destruct (merge_fields_Ok _ _ _ _ _ k item fields 0 st st' lg Hlen Hrun)
    as (_ & _ & _ & Hcap & Hnocap).
  destruct (captures_price item "Price") eqn:Hc.
  - destruct (decide ("Price" ∈ fields)) as [Hin|Hin].
    + destruct (Hcap eq_refl Hin) as (p & v & Hp & Hpi & Hv & Hop).
      right. exists p, v. apply captures_price_true in Hc as [_ (v' & Hv' & Hne)].
      rewrite Hv in Hv'. injection Hv' as <-. auto.
    + left. destruct (Hnocap (or_intror Hin)). split; congruence.
  - left. destruct (Hnocap (or_introl eq_refl)). split; congruence.
Qed.

Lemma follows_price_false i p :
  follows_price fields i = false -> fields !! p = Some "Price" -> i <> S p.
Proof.
  intros Hf Hp ->. cbn in Hf. by rewrite bool_decide_eq_true_2 in Hf.
Qed.

(** A column that does not follow 'Price' holds what the loop left. *)
Lemma merged_column k asset_data items item ndv merged lg i f inc :
  items !! k = Some item -> item <> ∅ -> size item = length fields ->
  length asset_data = length fields ->
  merge k asset_data items ndv = (Ok merged, lg) ->
  fields !! i = Some f -> asset_data.*2 !! i = Some inc ->
  follows_price fields i = false ->
  match existing_cell item f with
  | None => merged !! i = Some inc
  | Some v => exists new, merged_value f v inc = (Ok new, []) /\ merged !! i = Some new
  end.
Proof.
  intros Hk Hne Hsz Hlen Hrun Hf Hinc Hslot.
  rewrite (merge_unfold k asset_data items item ndv Hk Hne Hsz) in Hrun.
  apply bind_Ok in Hrun as (st' & l1 & l2 & Hloop & Hpost & ->).
  assert (Hlen' : 0 + length fields <= length (csv_record (start asset_data ndv)))
    by (cbn; rewrite length_fmap; lia).
  pose proof (merge_fields_Ok _ _ _ _ _ k item fields 0 _ st' l1 Hlen' Hloop)
    as (Hl & _ & Hcols & _ & _).
  pose proof (Hcols i f inc Hf Hinc) as Hcol. cbn in Hcol.
  assert (Hm : merged !! i = csv_record st' !! i).
  { destruct (decide (0 < price_index st')) as [Hpos|Hpos].
    - apply setitem_Ok in Hpost as (_ & -> & _).
      destruct (price_index_after k item _ st' l1 Hlen' eq_refl Hloop)
        as [[Hz _]|(p & v & Hp & Hpi & _)]; [lia|].
      apply list_lookup_insert_ne. pose proof (follows_price_false i p Hslot Hp). lia.
    - injection Hpost as <- _. done. }
  destruct (existing_cell item f); [|congruence].
  destruct Hcol as (new & ? & ?). exists new. split; [done|congruence].
Qed.

(** The column after 'Price' receives the price of the file. *)
Lemma merged_old_price k asset_data items item ndv merged lg p v :
  items !! k = Some item -> item <> ∅ -> size item = length fields ->
  length asset_data = length fields ->
  NoDup fields ->
  merge k asset_data items ndv = (Ok merged, lg) ->
  fields !! p = Some "Price" -> 0 < p ->
  existing_cell item "Price" = Some v -> v <> empty_cell ->
  merged !! S p = Some (VFloat (convert_to_float (VStr v))).
Proof.
  intros Hk Hne Hsz Hlen Hnd Hrun Hp Hpos Hv Hmark.
  rewrite (merge_unfold k asset_data items item ndv Hk Hne Hsz) in Hrun.
  apply bind_Ok in Hrun as (st' & l1 & l2 & Hloop & Hpost & ->).
  assert (Hlen' : 0 + length fields <= length (csv_record (start asset_data ndv)))
    by (cbn; rewrite length_fmap; lia).
  pose proof (merge_fields_Ok _ _ _ _ _ k item fields 0 _ st' l1 Hlen' Hloop)
    as (_ & _ & _ & Hcap & _).
  assert (Hc : captures_price item "Price" = true)
    by (apply captures_price_true; eauto).
  assert (Hin : "Price" ∈ fields) by (eapply list_elem_of_lookup_2; eauto).
  destruct (Hcap Hc Hin) as (p' & v' & Hp' & Hpi & Hv' & Hop).
  assert (p' = p) as -> by (eapply NoDup_lookup; eauto).
  rewrite Hv in Hv'. injection Hv' as <-. cbn in Hpi.
  destruct (decide (0 < price_index st')); [|lia].
  apply setitem_Ok in Hpost as (Hlt & -> & _).
  rewrite Hpi in *. replace (p + 1) with (S p) in * by lia.
  rewrite list_lookup_insert_eq by done. by rewrite Hop.
Qed.

Lemma has_csv_columns_length asset_data :
  has_csv_columns fields asset_data -> length asset_data = length fields.
Proof. unfold has_csv_columns. intros <-. by rewrite length_fmap. Qed.

Lemma has_csv_columns_lookup asset_data i f :
  has_csv_columns fields asset_data -> fields !! i = Some f ->
  exists inc, asset_data !! i = Some (f, inc) /\ asset_data.*2 !! i = Some inc.
Proof.
  unfold has_csv_columns. intros <- Hf. rewrite list_lookup_fmap in Hf.
  destruct (asset_data !! i) as [[g inc]|] eqn:Hi; [|discriminate].
  injection Hf as <-. exists inc. split; [done|].
  by rewrite list_lookup_fmap, Hi.
Qed.

Lemma origin_is_str_lookup asset_data j inc :
  has_csv_columns fields asset_data -> origin_is_str asset_data = true ->
  fields !! j = Some "Origin" -> asset_data.*2 !! j = Some inc ->
  exists s, inc = VStr s.
Proof.
  intros Hcols Hstr Hj Hinc.
  destruct (has_csv_columns_lookup asset_data j "Origin" Hcols Hj) as (inc' & Hkv & Hinc').
  rewrite Hinc in Hinc'. injection Hinc' as <-.
  unfold origin_is_str in Hstr. rewrite forallb_forall in Hstr.
  specialize (Hstr ("Origin", inc)). cbn in Hstr.
  assert (In ("Origin", inc) asset_data) as Hin.
  { apply list_elem_of_In. eapply list_elem_of_lookup_2; eauto. }
  apply Hstr in Hin. apply bool_decide_eq_true in Hin as [s Hs].
  destruct inc; try discriminate. eauto.
Qed.

Lemma price_has_next_column_lookup p :
  price_has_next_column fields = true -> fields !! p = Some "Price" ->
  S p < length fields.
Proof.
  unfold price_has_next_column. rewrite negb_true_iff, bool_decide_eq_false.
  intros Hlast Hp. apply lookup_lt_Some in Hp as Hlt.
  destruct (decide (S p < length fields)) as [|Hge]; [done|].
  exfalso. apply Hlast. rewrite last_lookup.
  replace (Init.Nat.pred (length fields)) with p by lia. done.
Qed.

Lemma row_not_empty (item : file_row) i f :
  size item = length fields -> fields !! i = Some f -> item <> ∅.
Proof.
  intros Hsz Hf ->. rewrite map_size_empty in Hsz.
  apply lookup_lt_Some in Hf. lia.
Qed.

(** The merge of a record that has the columns of the CSV returns, with as
    many values as there are columns. *)
Lemma merge_returns k asset_data items ndv :
  has_csv_columns fields asset_data -> origin_is_str asset_data = true ->
  price_has_next_column fields = true ->
  exists merged lg, merge k asset_data items ndv = (Ok merged, lg)
                    /\ length merged = length fields.
Proof.
  intros Hcols Hstr Hnext.
  pose proof (has_csv_columns_length _ Hcols) as Hlen.
  assert (Hl2 : length (asset_data.*2) = length fields) by (by rewrite length_fmap).
  unfold update_and_merge_csv_record_data.
  destruct (items !! k) as [item|]; [|by eexists _, _].
  case_bool_decide; [by eexists _, _|].
  case_bool_decide; [by eexists _, _|].
  assert (Hlen' : 0 + length fields <= length (csv_record (start asset_data ndv)))
    by (cbn; lia).
  destruct (merge_fields_total is_preserved empty_cell str_is_bool str_to_bool
              convert_to_float k item fields 0 (start asset_data ndv) Hlen')
    as (st' & l1 & Hloop).
  { intros j inc. by apply origin_is_str_lookup. }
  pose proof (merge_fields_Ok _ _ _ _ _ k item fields 0 _ st' l1 Hlen' Hloop)
    as (Hl & _).
  rewrite Hloop. cbn. cbn in Hl.
  destruct (decide (0 < price_index st')) as [Hpos|Hpos].
  - destruct (price_index_after k item _ st' l1 Hlen' eq_refl Hloop)
      as [[Hz _]|(p & v & Hp & Hpi & _)]; [lia|].
    pose proof (price_has_next_column_lookup p Hnext Hp). unfold setitem.
    destruct (decide _) as [|Hn]; [|lia]. cbn. eexists _, _. split; [done|].
    rewrite length_insert. lia.
  - cbn. eexists _, _. split; [done|]. lia.
Qed.


(** C5 (as amended). For an asset found in the existing file, with a row
    of the expected number of keys: every column that is not PRESERVED
    (OVERWRITE or COMPUTED), 'Price' included, other than 'Origin' and
    than the column right after 'Price', holds after the merge the
    incoming value as it is whenever the cell of the file is missing or is
    not the empty-cell marker; when the cell of the file is the marker the
    merged value is the empty text. *)
Theorem overwritten_value_comes_from_incoming
    (asset_id : string) (asset_data : list (string * pyval))
    (items_in_file : gmap string file_row) (item_in_file : file_row)
    (no_data_value : Z) (i : nat) (f : string) (incoming : pyval) :
  items_in_file !! asset_id = Some item_in_file ->
  size item_in_file = length fields ->
  has_csv_columns fields asset_data ->
  origin_is_str asset_data = true ->
  price_has_next_column fields = true ->
  fields !! i = Some f ->
  asset_data !! i = Some (f, incoming) ->
  is_preserved f = false ->
  f <> "Origin" ->
  follows_price fields i = false ->
  exists merged lg,
    merge asset_id asset_data items_in_file no_data_value = (Ok merged, lg)
    /\ (existing_cell item_in_file f <> Some empty_cell -> merged !! i = Some incoming)
    /\ (existing_cell item_in_file f = Some empty_cell -> merged !! i = Some (VStr "")).
Proof.
  intros Hk Hsz Hcols Hstr Hnext Hf Hinc Hpres Horigin Hslot.
  destruct (merge_returns asset_id asset_data items_in_file no_data_value
              Hcols Hstr Hnext) as (merged & lg & Hrun & _).
  exists merged, lg. split; [done|].
  assert (Hinc2 : asset_data.*2 !! i = Some incoming)
    by (by rewrite list_lookup_fmap, Hinc).
  pose proof (merged_column asset_id asset_data items_in_file item_in_file
                no_data_value merged lg i f incoming Hk (row_not_empty _ _ _ Hsz Hf) Hsz
                (has_csv_columns_length _ Hcols) Hrun Hf Hinc2 Hslot) as Hcol.
  destruct (existing_cell item_in_file f) as [v|]; [|split; [done|discriminate]].
  destruct Hcol as (new & Hnew & ->). split.
  - intros Hv. rewrite merged_value_plain in Hnew; [|congruence|by left|done].
    rewrite Hpres in Hnew. by injection Hnew as <-.
  - intros [= ->]. rewrite merged_value_marker in Hnew. by injection Hnew as <-.
Qed.

(** C2 (as amended). For an asset found in the existing file, with a row
    of the expected number of keys: when 'Price' is a column other than the
    first, followed by 'Old price', and the 'Price' cell of the file is
    present and is not the empty-cell marker, the merged 'Old price' is
    the numeric conversion of the 'Price' of the file, and the merged
    'Price' is the incoming one ('Price' not being PRESERVED), whether or
    not the two prices differ. *)
Theorem old_price_is_price_of_file
    (asset_id : string) (asset_data : list (string * pyval))
    (items_in_file : gmap string file_row) (item_in_file : file_row)
    (no_data_value : Z) (p : nat) (value : string) (new_price : pyval) :
  items_in_file !! asset_id = Some item_in_file ->
  size item_in_file = length fields ->
  has_csv_columns fields asset_data ->
  origin_is_str asset_data = true ->
  NoDup fields ->
  fields !! p = Some "Price" ->
  fields !! S p = Some "Old price" ->
  0 < p ->
  is_preserved "Price" = false ->
  asset_data !! p = Some ("Price", new_price) ->
  existing_cell item_in_file "Price" = Some value ->
  value <> empty_cell ->
  exists merged lg,
    merge asset_id asset_data items_in_file no_data_value = (Ok merged, lg)
    /\ merged !! S p = Some (VFloat (convert_to_float (VStr value)))
    /\ merged !! p = Some new_price.
Proof.
  intros Hk Hsz Hcols Hstr Hnd Hp Hop Hpos Hpres Hinc Hcell Hmark.
  assert (Hnext : price_has_next_column fields = true).
  { unfold price_has_next_column. rewrite negb_true_iff, bool_decide_eq_false.
    rewrite last_lookup. intros Hlast.
    apply lookup_lt_Some in Hop.
    assert (Init.Nat.pred (length fields) = p) by (eapply NoDup_lookup; eauto).
    lia. }
  destruct (merge_returns asset_id asset_data items_in_file no_data_value
              Hcols Hstr Hnext) as (merged & lg & Hrun & _).
  exists merged, lg. split; [done|].
  pose proof (row_not_empty _ _ _ Hsz Hp) as Hne.
  pose proof (has_csv_columns_length _ Hcols) as Hlen.
  split.
  - eapply merged_old_price; eauto.
  - assert (Hinc2 : asset_data.*2 !! p = Some new_price)
      by (by rewrite list_lookup_fmap, Hinc).
    assert (Hslot : follows_price fields p = false).
    { destruct p as [|q]; [done|]. cbn. apply bool_decide_eq_false. intros Hq.
      assert (q = S q) by (eapply NoDup_lookup; eauto). lia. }
    pose proof (merged_column asset_id asset_data items_in_file item_in_file
                  no_data_value merged lg p "Price" new_price Hk Hne Hsz Hlen Hrun
                  Hp Hinc2 Hslot) as Hcol.
    rewrite Hcell in Hcol. destruct Hcol as (new & Hnew & ->).
    rewrite merged_value_plain in Hnew; [|done|by left|done].
    rewrite Hpres in Hnew. by injection Hnew as <-.
Qed.

(** C6. The merged record is the incoming record unchanged (i) when the
    asset_id is absent from the existing data, without any log record, and
    (ii) when the row of the file for that asset_id (a row read from the
    file: it has the key 'Asset_id') does not have as many keys as the CSV
    has columns, in which case one error is logged; the caller in
    list_assets takes the incoming values as they are when the file gave
    no row at all, and calls the merge otherwise. *)
Theorem incoming_record_returned_unchanged
    (asset_id : string) (asset_data : list (string * pyval))
    (items_in_file : gmap string file_row) (no_data_value : Z) :
  (items_in_file !! asset_id = None ->
     merge asset_id asset_data items_in_file no_data_value = (Ok (asset_data.*2), []))
  /\ (forall item_in_file,
        items_in_file !! asset_id = Some item_in_file ->
        is_Some (item_in_file !! "Asset_id") ->
        size item_in_file <> length fields ->
        merge asset_id asset_data items_in_file no_data_value =
          (Ok (asset_data.*2),
           [Log ERROR
              "In the existing file, asset has not the same number of keys as the CSV headings. This asset is ignored and its values will be overwritten"
              [asset_id]]))
  /\ (items_in_file = ∅ ->
        csv_record_merged fields is_preserved empty_cell str_is_bool str_to_bool
          convert_to_float asset_id asset_data items_in_file no_data_value
        = (Ok (asset_data.*2), []))
  /\ (items_in_file <> ∅ ->
        csv_record_merged fields is_preserved empty_cell str_is_bool str_to_bool
          convert_to_float asset_id asset_data items_in_file no_data_value
        = merge asset_id asset_data items_in_file no_data_value).
Proof.
  unfold csv_record_merged, update_and_merge_csv_record_data.
  split; [|split; [|split]].
  - intros ->. reflexivity.
  - intros item Hk Hid Hsz. rewrite Hk.
    rewrite bool_decide_eq_false_2
      by (intros ->; rewrite lookup_empty in Hid; by destruct Hid).
    rewrite bool_decide_eq_true_2 by done. reflexivity.
  - intros ->. rewrite map_size_empty. reflexivity.
  - intros Hne. destruct (decide (0 < size items_in_file)) as [|Hz]; [done|].
    exfalso. apply Hne. apply map_size_empty_iff. lia.
Qed.


End whole_record.

Section remerge.
Context (fields : list string) (is_preserved : string -> bool) (empty_cell : string)
        (str_is_bool str_to_bool : string -> bool) (convert_to_float : pyval -> float)
        (float_repr : float -> string).

Local Abbreviation merged_value :=
  (Merge.merged_value is_preserved empty_cell str_is_bool str_to_bool).
Local Abbreviation coerce := (Merge.coerce str_is_bool str_to_bool).
Local Abbreviation merge :=
  (update_and_merge_csv_record_data fields is_preserved empty_cell str_is_bool
     str_to_bool convert_to_float).
Local Abbreviation reread := (Merge.reread fields float_repr).
Local Abbreviation csv_str := (Merge.csv_str float_repr).

(** The row read again has the columns of the CSV, each with the text of
    the merged value. *)
Lemma reread_size merged :
  NoDup fields -> length merged = length fields ->
  size (reread merged) = length fields.
Proof.
  intros Hnd Hlen. unfold Merge.reread.
  rewrite map_size_list_to_map.
  - rewrite length_zip_with, length_fmap. lia.
  - rewrite fst_zip by (rewrite length_fmap; lia). done.
Qed.

Lemma reread_cell merged i f m :
  NoDup fields -> length merged = length fields ->
  fields !! i = Some f -> merged !! i = Some m ->
  existing_cell (reread merged) f = Some (csv_str m).
Proof.
  intros Hnd Hlen Hf Hm. unfold existing_cell, Merge.reread.
  assert (Hlen' : length fields <= length (Some ∘ csv_str <$> merged))
    by (rewrite length_fmap; lia).
  rewrite (elem_of_list_to_map_1 _ f (Some (csv_str m))); [reflexivity| |].
  - rewrite fst_zip by exact Hlen'. exact Hnd.
  - apply (elem_of_lookup_zip_with_2 pair _ _ f (Some (csv_str m)) (f, None) i); [done|].
    by rewrite list_lookup_fmap, Hm.
Qed.

Lemma coerce_csv_str v :
  (forall b, coerce (csv_str (VBool b)) = VBool b) ->
  coerce (csv_str (coerce v)) = coerce v.
Proof.
  intros Hb. unfold Merge.coerce at 2 3.
  destruct (str_is_bool v) eqn:Hv; [apply Hb|].
  cbn. unfold Merge.coerce. by rewrite Hv.
Qed.


End remerge.

(** *** The statements on the sample data *)



Lemma old_price_is_price_of_file_witness :
  exists merged lg,
    Demo.merge Demo.preserved_user "A1" Demo.incoming_A1 Demo.file_A1 0 = (Ok merged, lg)
    /\ merged !! 4 = Some (VFloat (Demo.convert_to_float (VStr "10.0")))
    /\ merged !! 3 = Some (VFloat 8).
Proof.
  apply (old_price_is_price_of_file Demo.fields Demo.preserved_user Demo.empty_cell
           Demo.str_is_bool Demo.str_to_bool Demo.convert_to_float
           "A1" Demo.incoming_A1 Demo.file_A1 Demo.row_A1 0 3 "10.0" (VFloat 8)).
  - vm_compute; reflexivity.
  - vm_compute; reflexivity.
  - reflexivity.
  - reflexivity.
  - apply (bool_decide_unpack (NoDup Demo.fields)). vm_compute. exact I.
  - reflexivity.
  - reflexivity.
  - lia.
  - reflexivity.
  - reflexivity.
  - vm_compute; reflexivity.
  - discriminate.
Defined.

(** The 'Price' and the 'Old price' of the file hold the empty-cell marker:
    the merged 'Price' is the empty text, not the incoming 8.0, and the
    merged 'Old price' is the empty text, not the numeric conversion of the
    'Price' of the file. *)
Lemma marked_price_is_not_captured :
  Demo.file_blank !! "A1" = Some Demo.row_blank
  /\ size Demo.row_blank = length Demo.fields
  /\ Demo.incoming_A1 !! 3 = Some ("Price", VFloat 8)
  /\ Demo.merge Demo.preserved_user "A1" Demo.incoming_A1 Demo.file_blank 0 =
       (Ok [VStr "A1"; VStr "AssetV5"; VStr ""; VStr ""; VStr ""; VStr "nice";
            VBool true; VStr ""], [])
  /\ VStr "" <> VFloat 8
  /\ VStr "" <> VFloat (Demo.convert_to_float (VStr "None")).
Proof.
  repeat split; try (vm_compute; reflexivity); discriminate.
Qed.

Lemma overwritten_value_comes_from_incoming_witness :
  exists merged lg,
    Demo.merge Demo.preserved_user "A1" Demo.incoming_A1 Demo.file_A1 0 = (Ok merged, lg)
    /\ (existing_cell Demo.row_A1 "Category" <> Some Demo.empty_cell ->
          merged !! 2 = Some (VStr "Plugins"))
    /\ (existing_cell Demo.row_A1 "Category" = Some Demo.empty_cell ->
          merged !! 2 = Some (VStr "")).
Proof.
  apply (overwritten_value_comes_from_incoming Demo.fields Demo.preserved_user
           Demo.empty_cell Demo.str_is_bool Demo.str_to_bool Demo.convert_to_float
           "A1" Demo.incoming_A1 Demo.file_A1 Demo.row_A1 0 2 "Category" (VStr "Plugins")).
  - vm_compute; reflexivity.
  - vm_compute; reflexivity.
  - reflexivity.
  - reflexivity.
  - reflexivity.
  - reflexivity.
  - reflexivity.
  - reflexivity.
  - discriminate.
  - reflexivity.
Defined.

(** The 'Category' of the file holds the empty-cell marker: the merged
    'Category' is the empty text, not the incoming "Plugins". *)
Lemma marked_cell_blanks_the_incoming_value :
  Demo.fields !! 2 = Some "Category"
  /\ Demo.preserved_user "Category" = false
  /\ Demo.incoming_A1 !! 2 = Some ("Category", VStr "Plugins")
  /\ existing_cell Demo.row_blank "Category" = Some Demo.empty_cell
  /\ Demo.merge Demo.preserved_user "A1" Demo.incoming_A1 Demo.file_blank 0 =
       (Ok [VStr "A1"; VStr "AssetV5"; VStr ""; VStr ""; VStr ""; VStr "nice";
            VBool true; VStr ""], [])
  /\ VStr "" <> VStr "Plugins".
Proof.
  repeat split; try (vm_compute; reflexivity); discriminate.
Qed.

Lemma incoming_record_returned_unchanged_witness :
  Demo.merge Demo.preserved_user "B1" Demo.incoming_A1 Demo.file_A1 0 =
    (Ok (Demo.incoming_A1.*2), [])
  /\ Demo.merge Demo.preserved_user "A1" Demo.incoming_A1 Demo.file_long 0 =
       (Ok (Demo.incoming_A1.*2),
        [Log ERROR
           "In the existing file, asset has not the same number of keys as the CSV headings. This asset is ignored and its values will be overwritten"
           ["A1"]]).
Proof.
  pose proof (incoming_record_returned_unchanged Demo.fields Demo.preserved_user
                Demo.empty_cell Demo.str_is_bool Demo.str_to_bool Demo.convert_to_float
                "B1" Demo.incoming_A1 Demo.file_A1 0) as (Habsent & _).
  pose proof (incoming_record_returned_unchanged Demo.fields Demo.preserved_user
                Demo.empty_cell Demo.str_is_bool Demo.str_to_bool Demo.convert_to_float
                "A1" Demo.incoming_A1 Demo.file_long 0) as (_ & Hcount & _).
  split.
  - apply Habsent. vm_compute; reflexivity.
  - apply (Hcount Demo.row_long).
    + vm_compute; reflexivity.
    + vm_compute. by eexists.
    + vm_compute. discriminate.
Defined.



(** With 'Origin' among the preserved columns, the list joined by the
    'Origin' branch is replaced by the value of the file. *)
Example preserved_origin_keeps_the_file_value :
  Demo.preserved_all "Origin" = true
  /\ Demo.merge Demo.preserved_all "A1" Demo.incoming_A1 Demo.file_A1 0 =
       (Ok [VStr "A1"; VStr "AssetV5"; VStr "Plugins"; VFloat 8; VFloat 10; VStr "nice";
            VBool true; VStr "folderX"], []).
Proof. split; vm_compute; reflexivity. Qed.


End MergeFacts.

(** ** The merge pass over the catalog items *)

Module ListAssetsFacts.

Import ListAssets.

Section sorted_facts.
Context {A : Type} (key : A -> string).

Lemma insert_desc_perm x l : insert_desc key x l ≡ₚ x :: l.
Proof.
  induction l as [|y l IH]; cbn; [done|].
  destruct (String.leb (key y) (key x)); [done|].
  rewrite IH. apply Permutation_swap.
Qed.

(** The sorted list has the items of the batch. *)
Lemma sorted_reverse_perm l : sorted_reverse key l ≡ₚ l.
Proof.
  induction l as [|x l IH]; cbn; [done|].
  rewrite insert_desc_perm. by rewrite IH.
Qed.

Lemma insert_desc_sorted x l :
  StronglySorted (before key) l -> StronglySorted (before key) (insert_desc key x l).
Proof.
  induction 1 as [|y l Hl IH Hy]; cbn.
  - repeat constructor.
  - destruct (String.leb (key y) (key x)) eqn:Hle.
    + constructor; [by constructor|].
      constructor; [unfold before, String.le; by rewrite Hle|].
      eapply Forall_impl; [exact Hy|]. intros z Hz. unfold before in *.
      etrans; [exact Hz|]. unfold String.le. by rewrite Hle.
    + constructor; [done|].
      rewrite insert_desc_perm. constructor; [|done].
      unfold before. destruct (total String.le (key x) (key y)) as [|Hc]; [done|].
      unfold String.le in Hc. by rewrite Hle in Hc.
Qed.

(** The sorted list goes from the greatest key down. *)
Lemma sorted_reverse_sorted l : StronglySorted (before key) (sorted_reverse key l).
Proof.
  induction l as [|x l IH]; cbn; [constructor|]. by apply insert_desc_sorted.
Qed.

Lemma sorted_lookup_le l i j x y :
  StronglySorted (before key) l -> l !! i = Some x -> l !! j = Some y -> i <= j ->
  String.le (key y) (key x).
Proof.
  intros Hs. revert i j. induction Hs as [|z l Hl IH Hz]; intros i j Hi Hj Hij.
  - by rewrite lookup_nil in Hi.
  - destruct i as [|i], j as [|j]; cbn in *; simplify_eq.
    + done.
    + rewrite Forall_forall in Hz. apply Hz. by eapply list_elem_of_lookup_2.
    + lia.
    + eapply IH; eauto. lia.
Qed.
End sorted_facts.

Section merge_pass_facts.
Context (fields : list string) (values : Game -> string -> option (list pyval))
        (verbose_mode : bool).

Local Abbreviation record_of := (ListAssets.record_of fields values).
Local Abbreviation merge_item := (ListAssets.merge_item fields values verbose_mode).
Local Abbreviation merge_items := (ListAssets.merge_items fields values verbose_mode).
Local Abbreviation merge_pass := (ListAssets.merge_pass fields values verbose_mode).
Local Abbreviation first_built := (ListAssets.first_built fields values).
Local Abbreviation slot_after := (ListAssets.slot_after fields values).

Lemma create_asset_from_data_record item k :
  exists lg, create_asset_from_data fields values item k = (Ok (k, record_of item k), lg).
Proof.
  unfold create_asset_from_data, ListAssets.record_of.
  destruct (values item k); cbn; eauto.
Qed.

(** One iteration: the slot of the item is filled when it was free or held
    an empty record. *)
Lemma merge_item_spec out item :
  exists lg, merge_item out item =
    (Ok (if truthy_get out (item_asset_id item) then out
         else <[item_asset_id item := record_of item (item_asset_id item)]> out), lg).
Proof.
  unfold ListAssets.merge_item.
  destruct (truthy_get out (item_asset_id item)); cbn.
  - destruct verbose_mode; cbn; eauto.
  - destruct (create_asset_from_data_record item (item_asset_id item)) as [lg ->].
    cbn. destruct verbose_mode; cbn; eauto.
Qed.

Lemma truthy_get_insert out k r :
  truthy_get (<[k := r]> out) k = bool_decide (r <> []).
Proof.
  unfold truthy_get. rewrite lookup_insert_eq. by destruct r.
Qed.

Lemma truthy_get_insert_ne out k k' r :
  k' <> k -> truthy_get (<[k' := r]> out) k = truthy_get out k.
Proof. intros Hne. unfold truthy_get. by rewrite lookup_insert_ne. Qed.

Lemma slot_after_cons k item rest held :
  slot_after k (item :: rest) held =
    if decide (item_asset_id item = k) then
      if decide (record_of item k <> []) then Some (record_of item k)
      else slot_after k rest (Some [])
    else slot_after k rest held.
Proof.
  unfold ListAssets.slot_after, ListAssets.first_built, first_with. cbn.
  destruct (decide (item_asset_id item = k)) as [Hk|Hk].
  - destruct (decide (record_of item k <> [])) as [Hr|Hr].
    + rewrite decide_True by done. done.
    + rewrite decide_False by (intros [_ ?]; done).
      destruct (list_find _ rest) as [[i it]|]; cbn; [done|].
      by destruct (list_find _ rest) as [[i it]|].
  - rewrite decide_False by (intros [? _]; done).
    destruct (list_find _ rest) as [[i it]|]; cbn; [done|].
    by destruct (list_find _ rest) as [[i it]|].
Qed.

(** The loop: a slot that holds a record that is not empty keeps it; any
    other slot goes to the first item with that asset_id for which a record
    could be built. *)
Lemma merge_items_spec items : forall out0,
  exists out lg, merge_items out0 items = (Ok out, lg)
    /\ forall k, out !! k =
         if truthy_get out0 k then out0 !! k else slot_after k items (out0 !! k).
Proof.
  induction items as [|item rest IH]; intros out0; cbn.
  - exists out0, []. split; [done|]. intros k.
    unfold ListAssets.slot_after. cbn. by destruct (truthy_get out0 k).
  - destruct (merge_item_spec out0 item) as [l1 Hstep]. rewrite Hstep. cbn.
    set (out1 := if truthy_get out0 (item_asset_id item) then out0
                 else <[item_asset_id item := record_of item (item_asset_id item)]> out0).
    destruct (IH out1) as (out & l2 & Hrest & Hlook).
    rewrite Hrest. exists out, (l1 ++ l2). split; [done|].
    intros k. rewrite Hlook, slot_after_cons. unfold out1.
    destruct (decide (item_asset_id item = k)) as [<-|Hne].
    + destruct (truthy_get out0 (item_asset_id item)) eqn:Ht.
      * by rewrite Ht.
      * rewrite truthy_get_insert, lookup_insert_eq.
        destruct (decide (record_of item (item_asset_id item) <> [])) as [Hr|Hr].
        -- by rewrite bool_decide_eq_true_2.
        -- rewrite bool_decide_eq_false_2 by done.
           destruct (record_of item (item_asset_id item)); [done|]. by destruct Hr.
    + destruct (truthy_get out0 (item_asset_id item)) eqn:Ht; [done|].
      by rewrite truthy_get_insert_ne, lookup_insert_ne.
Qed.


End merge_pass_facts.

(** On the sample batch the slot of "A1" goes to the fifth version. *)
Example merge_pass_sample :
  (merge_pass Demo.fields Demo.values false
     [Demo.item_v4; Demo.item_other; Demo.item_v5]).1
  = Ok {[ "A1" := record_of Demo.fields Demo.values Demo.item_v5 "A1";
          "Other thing" := record_of Demo.fields Demo.values Demo.item_other "Other thing" ]}.
Proof. vm_compute. reflexivity. Qed.


End ListAssetsFacts.

(** ** The editable table *)

Module TableFacts.

Import Table.

Section methods.
Context {Row : Type}.
Implicit Types t : EditableTable Row.

Lemma tbind_get {B} (k : EditableTable Row -> T Row B) t : tbind get k t = k t t.
Proof. unfold tbind, get. by destruct (k t t) as [[? ?] ?]. Qed.

Lemma tbind_modify {B} f (k : unit -> T Row B) t : tbind (modify f) k t = k tt (f t).
Proof. unfold tbind, modify. by destruct (k tt (f t)) as [[? ?] ?]. Qed.

Lemma tbind_tret {A B} (a : A) (k : A -> T Row B) t : tbind (tret a) k t = k a t.
Proof. unfold tbind, tret. by destruct (k a t) as [[? ?] ?]. Qed.

Lemma tbind_lift_Ok {A B} (a : A) (k : A -> T Row B) t : tbind (lift (Ok a)) k t = k a t.
Proof. unfold tbind, lift. by destruct (k a t) as [[? ?] ?]. Qed.

Lemma tbind_emit {B} e (k : unit -> T Row B) t :
  tbind (emit e) k t = let '(r, t', ev) := k tt t in (r, t', e :: ev).
Proof. unfold tbind, emit. by destruct (k tt t) as [[? ?] ?]. Qed.

Lemma tbind_Ok {A B} (m : T Row A) (k : A -> T Row B) t a t1 ev1 :
  m t = (Ok a, t1, ev1) ->
  tbind m k t = let '(r, t2, ev2) := k a t1 in (r, t2, ev1 ++ ev2).
Proof. intros Hm. unfold tbind. by rewrite Hm. Qed.

(** *** Dirty rows and assets to delete *)

Lemma in_rows_true i rows : in_rows i rows = true <-> i ∈ rows.
Proof.
  unfold in_rows. rewrite existsb_exists. split.
  - intros (x & Hx & He). apply Z.eqb_eq in He as ->. by apply list_elem_of_In.
  - intros Hi. exists i. split; [by apply list_elem_of_In|apply Z.eqb_refl].
Qed.

Lemma in_ids_true a ids : in_ids a ids = true <-> a ∈ ids.
Proof.
  unfold in_ids. rewrite existsb_exists. split.
  - intros (x & Hx & He). apply String.eqb_eq in He as ->. by apply list_elem_of_In.
  - intros Hi. exists a. split; [by apply list_elem_of_In|apply String.eqb_refl].
Qed.

(** A call returns and leaves the two lists as they should be. *)
Lemma run_call_ok c t :
  tracking_ok t ->
  exists t', run_call c t = (Ok tt, t', []) /\ tracking_ok t'.
Proof.
  intros (Hrows & Hpos & Hids). destruct c as [i|a]; cbn.
  - unfold add_to_rows_to_save, tbind, get. cbn.
    destruct ((i <? 0)%Z) eqn:Hneg; cbn; [by eexists|].
    destruct ((Z.of_nat (length (data t)) <? i)%Z); cbn; [by eexists|].
    destruct (in_rows i (changed_rows t)) eqn:Hin; cbn; [by eexists|].
    eexists. split; [reflexivity|]. unfold tracking_ok. cbn.
    assert (i ∉ changed_rows t) as Hni.
    { intros Hi. apply in_rows_true in Hi. congruence. }
    split; [|split; [|done]].
    + apply NoDup_app. split; [done|]. split; [|apply NoDup_singleton].
      intros x Hx Hx'. apply list_elem_of_singleton in Hx' as ->. done.
    + apply Forall_app. split; [done|]. constructor; [|done].
      apply Z.ltb_ge in Hneg. done.
  - unfold add_to_asset_ids_to_delete, tbind, get. cbn.
    destruct (in_ids a (deleted_asset_ids t)) eqn:Hin; cbn; [by eexists|].
    eexists. split; [reflexivity|]. unfold tracking_ok. cbn.
    assert (a ∉ deleted_asset_ids t) as Hni.
    { intros Hi. apply in_ids_true in Hi. congruence. }
    split; [done|]. split; [done|].
    apply NoDup_app. split; [done|]. split; [|apply NoDup_singleton].
    intros x Hx Hx'. apply list_elem_of_singleton in Hx' as ->. done.
Qed.

(** A negative row index, a row index already in the list and an asset_id
    already in the list are ignored. *)
Lemma run_call_ignored t :
  (forall i, (i < 0)%Z \/ i ∈ changed_rows t -> run_call (AddRow i) t = (Ok tt, t, []))
  /\ (forall a, a ∈ deleted_asset_ids t -> run_call (AddDelete a) t = (Ok tt, t, [])).
Proof.
  split.
  - intros i Hi. cbn. unfold add_to_rows_to_save, tbind, get. cbn.
    destruct Hi as [Hneg|Hin].
    + apply Z.ltb_lt in Hneg. by rewrite Hneg.
    + apply in_rows_true in Hin. rewrite Hin.
      by destruct (i <? 0)%Z, (Z.of_nat (length (data t)) <? i)%Z.
  - intros a Ha. cbn. unfold add_to_asset_ids_to_delete, tbind, get. cbn.
    apply in_ids_true in Ha. by rewrite Ha.
Qed.

(** C10. After any sequence of add_to_rows_to_save and
    add_to_asset_ids_to_delete calls, run on a table whose two lists have
    no duplicate and no negative row index (as the empty lists of a new
    table), every call has returned, the list of changed rows has no
    duplicate and no negative row index, and the list of asset_ids to
    delete has no duplicate; a call with a negative row index, with a row
    index already in the list or with an asset_id already in the list
    returns without a trace and changes nothing. *)
Theorem tracking_lists_stay_duplicate_free (calls : list tracking_call) t :
  NoDup (changed_rows t) ->
  Forall (fun i => 0 <= i)%Z (changed_rows t) ->
  NoDup (deleted_asset_ids t) ->
  (exists t',
     run_calls calls t = (Ok tt, t', [])
     /\ NoDup (changed_rows t')
     /\ Forall (fun i => 0 <= i)%Z (changed_rows t')
     /\ NoDup (deleted_asset_ids t'))
  /\ (forall i, (i < 0)%Z \/ i ∈ changed_rows t ->
         add_to_rows_to_save i t = (Ok tt, t, []))
  /\ (forall a, a ∈ deleted_asset_ids t ->
         add_to_asset_ids_to_delete a t = (Ok tt, t, [])).
Proof.
  intros Hrows Hpos Hids. split; [|apply run_call_ignored].
  revert t Hrows Hpos Hids.
  induction calls as [|c rest IH]; intros t Hrows Hpos Hids; cbn.
  - exists t. done.
  - destruct (run_call_ok c t) as (t1 & Hstep & (H1 & H2 & H3)); [done|].
    destruct (IH t1 H1 H2 H3) as (t' & Hrest & Hok).
    exists t'. split; [|done]. unfold tbind. rewrite Hstep, Hrest. done.
Qed.

End methods.

Lemma tracking_lists_stay_duplicate_free_witness :
  exists t',
    run_calls [AddRow 2; AddRow 2; AddRow (-1); AddDelete "A1"; AddRow 0; AddDelete "A1"]
      Demo.view = (Ok tt, t', [])
    /\ NoDup (changed_rows t')
    /\ Forall (fun i => 0 <= i)%Z (changed_rows t')
    /\ NoDup (deleted_asset_ids t').
Proof.
  destruct (tracking_lists_stay_duplicate_free
              [AddRow 2; AddRow 2; AddRow (-1); AddDelete "A1"; AddRow 0; AddDelete "A1"]
              Demo.view) as [Hrun _].
  - cbn. constructor.
  - cbn. constructor.
  - cbn. constructor.
  - exact Hrun.
Defined.

(** On the sample view the six calls leave rows 2 and 0 and the asset "A1". *)
Example run_calls_sample :
  let '(_, t', _) :=
    run_calls [AddRow 2; AddRow 2; AddRow (-1); AddDelete "A1"; AddRow 0; AddDelete "A1"]
      Demo.view in
  changed_rows t' = [2; 0]%Z /\ deleted_asset_ids t' = ["A1"].
Proof. vm_compute. done. Qed.

(** *** Pages *)

(** The page count of the code is the ceiling of the quotient. *)
Lemma pages_formula (n d : Z) :
  (0 < d)%Z -> (0 <= n)%Z -> ((n - 1) / d + 1)%Z = ceil_div n d.
Proof.
  intros Hd Hn. unfold ceil_div.
  assert ((- n) / d = - ((n - 1) / d + 1))%Z as ->; [|lia].
  symmetry. apply (Z.div_unique_pos _ _ _ (d - 1 - (n - 1) mod d)%Z).
  - pose proof (Z.mod_pos_bound (n - 1) d Hd). lia.
  - pose proof (Z.div_mod (n - 1) d). lia.
Qed.

(** [ceil_div n d] is the least [p] with [n <= p * d]. *)
Lemma ceil_div_spec (n d : Z) :
  (0 < d)%Z -> ((ceil_div n d - 1) * d < n <= ceil_div n d * d)%Z.
Proof.
  intros Hd. unfold ceil_div.
  pose proof (Z.div_mod (- n) d). pose proof (Z.mod_pos_bound (- n) d Hd). lia.
Qed.

Lemma ceil_div_pos (n d : Z) : (0 < d)%Z -> (0 < n)%Z -> (1 <= ceil_div n d)%Z.
Proof. intros Hd Hn. pose proof (ceil_div_spec n d Hd). nia. Qed.

Section pages.
Context {Row : Type}.
Implicit Types t : EditableTable Row.

(** The handler of IndexError in [update_page] never runs. *)
Lemma iloc_slice_returns (df : list Row) start stop :
  iloc_slice df start stop = Ok (slice df start stop).
Proof. reflexivity. Qed.

Lemma update_page_enabled t :
  pagination_enabled t = true -> (0 < rows_per_page t)%Z ->
  update_page t =
    (Ok tt,
     set_model_df
       (slice (filtered t) ((current_page t - 1) * rows_per_page t)
          ((current_page t - 1) * rows_per_page t + rows_per_page t))
       (set_total_pages (ceil_div (Z.of_nat (length (filtered t))) (rows_per_page t)) t),
     []).
Proof.
  intros Hen Hrpp. unfold update_page. rewrite tbind_get, Hen.
  unfold floordiv. assert ((rows_per_page t =? 0)%Z = false) as -> by lia.
  rewrite tbind_lift_Ok, tbind_modify. cbn.
  rewrite pages_formula by lia. reflexivity.
Qed.

(** Without pagination there is one page, the first. *)
Lemma update_page_disabled t :
  pagination_enabled t = false ->
  exists t', update_page t = (Ok tt, t', [])
    /\ current_page t' = 1%Z /\ total_pages t' = 1%Z /\ model_df t' = filtered t.
Proof.
  intros Hen. unfold update_page. rewrite tbind_get, Hen, !tbind_modify.
  eexists. split; [reflexivity|]. done.
Qed.

(** [update] counts the pages of the rows left by the mask and leaves the
    current page where it is, unless it is asked to reset it. *)
Lemma update_enabled t reset mask :
  pagination_enabled t = true -> (0 < rows_per_page t)%Z ->
  exists t', update reset mask t = (Ok tt, t', [])
    /\ filtered t' = masked mask (data t)
    /\ total_pages t' =
         ceil_div (Z.of_nat (length (masked mask (data t)))) (rows_per_page t)
    /\ current_page t' = (if reset then 1%Z else current_page t)
    /\ rows_per_page t' = rows_per_page t
    /\ pagination_enabled t' = true
    /\ data t' = data t.
Proof.
  intros Hen Hrpp. unfold update.
  destruct reset; rewrite ?tbind_modify, ?tbind_tret, tbind_get, tbind_modify,
    tbind_get, tbind_modify;
    (rewrite update_page_enabled by done); cbn;
    (eexists; split; [reflexivity|]); by destruct mask.
Qed.

Lemma store_read_state read table_row t :
  exists t1 ev1, store_read read table_row t = (Ok tt, t1, ev1)
    /\ current_page t1 = current_page t /\ rows_per_page t1 = rows_per_page t.
Proof.
  unfold store_read. rewrite tbind_get.
  destruct read as [rows first_none|].
  - destruct (data_source_type t);
      destruct ((Z.of_nat (length rows) <=? 0)%Z || first_none);
      by eexists _, _.
  - by eexists _, _.
Qed.

(** [load_data] counts the pages of all the rows it has loaded and leaves
    the current page where it is. *)
Lemma load_data_pages t go_on read table_row :
  (0 < rows_per_page t)%Z ->
  exists b t' ev,
    load_data go_on read table_row t = (Ok b, t', ev)
    /\ current_page t' = current_page t
    /\ rows_per_page t' = rows_per_page t
    /\ (b = true ->
          total_pages t' = ceil_div (Z.of_nat (length (data t'))) (rows_per_page t)
          /\ 0 < length (data t')).
Proof.
  intros Hrpp. unfold load_data. rewrite tbind_modify.
  destruct go_on; cbn [negb]; [|by eexists _, _, _].
  destruct (store_read_state read table_row (set_must_rebuild false t))
    as (t1 & ev1 & Hread & Hc & Hr).
  rewrite (tbind_Ok _ _ _ _ _ _ Hread). rewrite tbind_get. cbn in Hc, Hr.
  destruct (Z.of_nat (length (data t1)) <=? 0)%Z eqn:Hle.
  - cbn. eexists _, _, _. split; [reflexivity|]. done.
  - unfold floordiv. assert ((rows_per_page t1 =? 0)%Z = false) as -> by lia.
    rewrite tbind_lift_Ok, tbind_modify. cbn.
    eexists _, _, _. split; [reflexivity|]. cbn. split; [done|]. split; [done|].
    intros _. rewrite pages_formula by lia. rewrite Hr. split; [done|]. lia.
Qed.

Lemma navigate_enabled t (op : navigation) (mask : option (Row -> bool)) :
  pagination_enabled t = true -> (0 < rows_per_page t)%Z ->
  exists t',
    navigate op mask t = (Ok tt, t', [])
    /\ rows_per_page t' = rows_per_page t
    /\ (forall reset, op = Update reset ->
          total_pages t' =
            ceil_div (Z.of_nat (length (masked mask (data t)))) (rows_per_page t)
          /\ current_page t' = (if reset then 1%Z else current_page t))
    /\ (pages_consistent t ->
          length (masked mask (data t)) = length (filtered t) ->
          pages_consistent t')
    /\ (op = Update true \/ op = FirstPage ->
          0 < length (masked mask (data t)) ->
          pages_consistent t').
Proof.
  intros Hen Hrpp. unfold pages_consistent.
  destruct op as [reset| | | | |]; cbn [navigate].
  - destruct (update_enabled t reset mask Hen Hrpp)
      as (t' & -> & Hf & Htp & Hcp & Hr & _ & _).
    exists t'. split; [done|]. split; [done|]. rewrite Hf, Htp, Hcp, Hr.
    split; [by intros ? [= <-]|]. split.
    + intros [Ht Hc] Hn. rewrite Hn, <- Ht. split; [done|]. destruct reset; lia.
    + intros [[= ->]|[=]] Hn. split; [done|].
      pose proof (ceil_div_pos (Z.of_nat (length (masked mask (data t))))
                    (rows_per_page t) Hrpp). lia.
  - rewrite update_page_enabled by done. eexists. split; [reflexivity|]. cbn.
    split; [done|]. split; [by intros ? [=]|]. split.
    + intros [Ht Hc] _. rewrite <- Ht. done.
    + by intros [[=]|[=]].
  - unfold next_page. rewrite tbind_get.
    destruct (current_page t <? total_pages t)%Z eqn:Hlt.
    + rewrite tbind_modify.
      destruct (update_enabled (set_current_page (current_page t + 1)%Z t) false mask
                  Hen Hrpp) as (t' & -> & Hf & Htp & Hcp & Hr & _ & _).
      cbn in *. exists t'. split; [done|]. split; [done|]. split; [by intros ? [=]|].
      rewrite Hf, Htp, Hcp, Hr. split.
      * intros [Ht Hc] Hn. rewrite Hn, <- Ht. split; [done|]. lia.
      * by intros [[=]|[=]].
    + exists t. split; [done|]. split; [done|]. split; [by intros ? [=]|].
      split; [done|]. by intros [[=]|[=]].
  - unfold prev_page. rewrite tbind_get.
    destruct (1 <? current_page t)%Z eqn:Hlt.
    + rewrite tbind_modify.
      destruct (update_enabled (set_current_page (current_page t - 1)%Z t) false mask
                  Hen Hrpp) as (t' & -> & Hf & Htp & Hcp & Hr & _ & _).
      cbn in *. exists t'. split; [done|]. split; [done|]. split; [by intros ? [=]|].
      rewrite Hf, Htp, Hcp, Hr. split.
      * intros [Ht Hc] Hn. rewrite Hn, <- Ht. split; [done|]. lia.
      * by intros [[=]|[=]].
    + exists t. split; [done|]. split; [done|]. split; [by intros ? [=]|].
      split; [done|]. by intros [[=]|[=]].
  - unfold first_page. rewrite tbind_modify.
    destruct (update_enabled (set_current_page 1%Z t) false mask Hen Hrpp)
      as (t' & -> & Hf & Htp & Hcp & Hr & _ & _).
    cbn in *. exists t'. split; [done|]. split; [done|]. split; [by intros ? [=]|].
    rewrite Hf, Htp, Hcp, Hr. split.
    + intros [Ht Hc] Hn. rewrite Hn, <- Ht. split; [done|]. lia.
    + intros _ Hn. split; [done|].
      pose proof (ceil_div_pos (Z.of_nat (length (masked mask (data t))))
                    (rows_per_page t) Hrpp). lia.
  - unfold last_page. rewrite tbind_get, tbind_modify.
    destruct (update_enabled (set_current_page (total_pages t) t) false mask Hen Hrpp)
      as (t' & -> & Hf & Htp & Hcp & Hr & _ & _).
    cbn in *. exists t'. split; [done|]. split; [done|]. split; [by intros ? [=]|].
    rewrite Hf, Htp, Hcp, Hr. split.
    + intros [Ht Hc] Hn. rewrite Hn, <- Ht. split; [done|]. lia.
    + by intros [[=]|[=]].
Qed.

(** A navigation call either leaves the view as it was or counts the pages
    of the rows that the filter leaves. *)
Lemma navigate_counts_pages t (op : navigation) (mask : option (Row -> bool)) :
  pagination_enabled t = true -> (0 < rows_per_page t)%Z ->
  exists t',
    navigate op mask t = (Ok tt, t', [])
    /\ (t' = t \/
        total_pages t' = ceil_div (Z.of_nat (length (filtered t'))) (rows_per_page t')).
Proof.
  intros Hen Hrpp.
  assert (Hupd : forall t0 reset,
            pagination_enabled t0 = true -> (0 < rows_per_page t0)%Z ->
            exists t', update reset mask t0 = (Ok tt, t', [])
              /\ total_pages t' =
                   ceil_div (Z.of_nat (length (filtered t'))) (rows_per_page t')).
  { intros t0 reset H1 H2.
    destruct (update_enabled t0 reset mask H1 H2) as (t' & Hrun & Hf & Htp & _ & Hr & _).
    exists t'. split; [done|]. by rewrite Hf, Htp, Hr. }
  destruct op as [reset| | | | |]; cbn [navigate].
  - destruct (Hupd t reset Hen Hrpp) as (t' & Hrun & Htp). exists t'. split; [done|]. by right.
  - rewrite update_page_enabled by done. eexists. split; [reflexivity|]. by right.
  - unfold next_page. rewrite tbind_get. destruct (_ <? _)%Z.
    + rewrite tbind_modify.
      destruct (Hupd (set_current_page (current_page t + 1)%Z t) false Hen Hrpp)
        as (t' & Hrun & Htp).
      exists t'. split; [done|]. by right.
    + exists t. split; [done|]. by left.
  - unfold prev_page. rewrite tbind_get. destruct (_ <? _)%Z.
    + rewrite tbind_modify.
      destruct (Hupd (set_current_page (current_page t - 1)%Z t) false Hen Hrpp)
        as (t' & Hrun & Htp).
      exists t'. split; [done|]. by right.
    + exists t. split; [done|]. by left.
  - unfold first_page. rewrite tbind_modify.
    destruct (Hupd (set_current_page 1%Z t) false Hen Hrpp) as (t' & Hrun & Htp).
    exists t'. split; [done|]. by right.
  - unfold last_page. rewrite tbind_get, tbind_modify.
    destruct (Hupd (set_current_page (total_pages t) t) false Hen Hrpp)
      as (t' & Hrun & Htp).
    exists t'. split; [done|]. by right.
Qed.

(** C8 (as amended). With pagination enabled and rows_per_page > 0, every
    navigation call (update, update_page, next_page, prev_page,
    first_page, last_page) returns and either leaves the view as it was or
    leaves the page count equal to ceil(n / rows_per_page) for the n rows
    that the filter leaves; update always does the latter. A call that
    leaves the number of filtered rows unchanged keeps the page count equal
    to ceil(n / rows_per_page) and the current page within
    [1, total_pages] when they were so before; update with a reset and
    first_page establish both when n > 0. load_data returns and, when it
    succeeds, sets the page count to ceil(N / rows_per_page) for the N rows
    loaded, leaving the current page as it was. *)
Theorem pagination_bounds t (mask : option (Row -> bool)) :
  pagination_enabled t = true -> (0 < rows_per_page t)%Z ->
  (forall op : navigation,
     exists t',
       navigate op mask t = (Ok tt, t', [])
       /\ rows_per_page t' = rows_per_page t
       /\ (t' = t \/
           total_pages t' = ceil_div (Z.of_nat (length (filtered t'))) (rows_per_page t'))
       /\ (forall reset, op = Update reset ->
             filtered t' = masked mask (data t)
             /\ total_pages t' =
                  ceil_div (Z.of_nat (length (filtered t'))) (rows_per_page t'))
       /\ (pages_consistent t ->
             length (masked mask (data t)) = length (filtered t) ->
             pages_consistent t')
       /\ (op = Update true \/ op = FirstPage ->
             0 < length (masked mask (data t)) ->
             pages_consistent t'))
  /\ (forall go_on read table_row,
        exists b t' ev,
          load_data go_on read table_row t = (Ok b, t', ev)
          /\ current_page t' = current_page t
          /\ (b = true ->
                total_pages t' =
                  ceil_div (Z.of_nat (length (data t'))) (rows_per_page t))).
Proof.
  intros Hen Hrpp. split.
  - intros op.
    destruct (navigate_enabled t op mask Hen Hrpp)
      as (t' & Hrun & Hr & _ & Hkeep & Hset).
    destruct (navigate_counts_pages t op mask Hen Hrpp) as (t2 & Hrun2 & Hcount).
    rewrite Hrun in Hrun2. injection Hrun2 as <-.
    exists t'. split; [done|]. split; [done|]. split; [done|].
    split; [|done].
    intros reset ->. cbn [navigate] in Hrun.
    destruct (update_enabled t reset mask Hen Hrpp)
      as (t3 & Hrun3 & Hf & Htp & _ & Hr3 & _).
    rewrite Hrun in Hrun3. injection Hrun3 as <-.
    split; [done|]. by rewrite Hf, Htp, Hr3.
  - intros go_on read table_row.
    destruct (load_data_pages t go_on read table_row Hrpp)
      as (b & t' & ev & Hrun & Hc & _ & Hb).
    exists b, t', ev. split; [done|]. split; [done|]. intros Hbt. by apply Hb.
Qed.

End pages.

Lemma pagination_bounds_witness :
  exists t', navigate NextPage None Demo.view = (Ok tt, t', []) /\ pages_consistent t'.
Proof.
  destruct (pagination_bounds Demo.view None eq_refl) as [Hnav _]; [done|].
  destruct (Hnav NextPage) as (t' & Hrun & _ & _ & _ & Hkeep & _).
  exists t'. split; [exact Hrun|]. apply Hkeep.
  - split; [vm_compute; reflexivity|]. cbn. lia.
  - reflexivity.
Defined.

(** Two runs of the sample views. update, with a reset, applies a filter
    that leaves no row: no page is counted and the current page is 1,
    which is not within [1, 0]. load_data, on a view that shows ten filtered
    rows on one page, loads a hundred rows: three pages are counted, not the
    one page of the ten filtered rows. *)
Lemma no_page_for_an_empty_view :
  (let '(r, t', _) :=
     navigate (Update true) (Some (fun _ => false)) Demo.view in
   r = Ok tt /\ pagination_enabled t' = true /\ rows_per_page t' = 36%Z
   /\ length (filtered t') = 0
   /\ total_pages t' = 0%Z /\ current_page t' = 1%Z
   /\ ~ (1 <= current_page t' <= total_pages t')%Z)
  /\ (let '(r, t', _) :=
        load_data true (ReadRows (seq 0 100) false) [] Demo.filtered_view in
      r = Ok true /\ pagination_enabled t' = true /\ rows_per_page t' = 36%Z
      /\ length (filtered t') = 10
      /\ total_pages t' = 3%Z
      /\ total_pages t' <> ceil_div (Z.of_nat (length (filtered t'))) (rows_per_page t')).
Proof.
  split; vm_compute; repeat split; try reflexivity; try discriminate.
  intros [H1 H2]; auto.
Qed.

(** On the third page of a hundred rows, update applies without a reset a
    filter that leaves ten rows: the slice of the third page is empty, no
    IndexError is raised, one page is counted and the current page is
    still 3. *)
Example update_without_reset_on_a_later_page :
  let '(r, t', _) :=
    navigate (Update false) (Some (fun row : nat => Nat.ltb row 10)) Demo.view in
  r = Ok tt /\ length (filtered t') = 10 /\ model_df t' = []
  /\ total_pages t' = 1%Z /\ current_page t' = 3%Z.
Proof. vm_compute. repeat split; reflexivity. Qed.

(** *** Saving *)

Section save_facts.
Context {Row SqlRow : Type}.
Context (to_csv : list Row -> option exn)
        (convert_csv_row_to_sql_row : Row -> result SqlRow)
        (save_ue_asset : SqlRow -> result string)
        (delete_asset : string -> option exn).
Implicit Types t : EditableTable Row.

Local Abbreviation save_changed_rows :=
  (Table.save_changed_rows convert_csv_row_to_sql_row save_ue_asset).
Local Abbreviation delete_marked_assets := (Table.delete_marked_assets delete_asset).
Local Abbreviation save_data :=
  (Table.save_data to_csv convert_csv_row_to_sql_row save_ue_asset delete_asset).
Local Abbreviation row_failure_is_caught :=
  (Table.row_failure_is_caught convert_csv_row_to_sql_row save_ue_asset).
Local Abbreviation delete_failure_is_caught :=
  (Table.delete_failure_is_caught delete_asset).

Lemma get_row_eq row t :
  get_row row t =
    (match iloc (filtered t) row with
     | Ok record => Ok (Some record)
     | Raise IndexError => Ok None
     | Raise e => Raise e
     end, t, []).
Proof.
  unfold get_row. rewrite tbind_get.
  destruct (iloc (filtered t) row) as [x|[]]; reflexivity.
Qed.

Lemma iloc_raises {A} (l : list A) i e : iloc l i = Raise e -> e = IndexError.
Proof.
  unfold iloc. destruct (_ && _); [|by intros [= <-]].
  destruct (l !! _); [discriminate|by intros [= <-]].
Qed.

(** The loops leave the attributes alone. *)
Lemma save_changed_rows_state rows t :
  exists r ev, save_changed_rows rows t = (r, t, ev).
Proof.
  induction rows as [|row rest (r & ev & IH)]; cbn; [by eexists _, _|].
  unfold tbind at 1. rewrite get_row_eq.
  destruct (iloc (filtered t) row) as [row_data|e] eqn:Hrow.
  - unfold tbind at 1, lift.
    destruct (convert_csv_row_to_sql_row row_data) as [sql|e]; [|by eexists _, _].
    unfold tbind at 1.
    destruct (save_ue_asset sql) as [id|e].
    + rewrite tbind_emit. unfold emit. rewrite IH. by eexists _, _.
    + destruct (caught e); unfold emit, traise; [rewrite IH|]; by eexists _, _.
  - apply iloc_raises in Hrow as ->. rewrite IH. by eexists _, _.
Qed.

Lemma delete_marked_assets_state ids t :
  exists r ev, delete_marked_assets ids t = (r, t, ev).
Proof.
  induction ids as [|a rest (r & ev & IH)]; cbn; [by eexists _, _|].
  unfold tbind at 1.
  destruct (delete_asset a) as [e|].
  - destruct (caught e); unfold emit, traise; [rewrite IH|]; by eexists _, _.
  - rewrite tbind_emit. unfold emit. rewrite IH. by eexists _, _.
Qed.

(** With every failure caught, the loop over the rows runs to its end and
    leaves a trace of each row. *)
Lemma save_changed_rows_all rows t :
  forallb (row_failure_is_caught t) rows = true ->
  exists ev, save_changed_rows rows t = (Ok tt, t, ev)
    /\ forall row row_data asset_data,
         row ∈ rows -> iloc (filtered t) row = Ok row_data ->
         convert_csv_row_to_sql_row row_data = Ok asset_data ->
         match save_ue_asset asset_data with
         | Ok asset_id => SavedAsset row asset_id ∈ ev
         | Raise e => save_warning row e ∈ ev
         end.
Proof.
  induction rows as [|row rest IH]; cbn.
  - intros _. eexists. split; [done|]. intros ??? Hin. by apply elem_of_nil in Hin.
  - rewrite andb_true_iff. intros [Hrow Hrest].
    destruct (IH Hrest) as (ev & Hrun & Hev).
    unfold tbind at 1. rewrite get_row_eq.
    unfold Table.row_failure_is_caught in Hrow.
    destruct (iloc (filtered t) row) as [row_data|e] eqn:Hiloc.
    + unfold tbind at 1, lift.
      destruct (convert_csv_row_to_sql_row row_data) as [sql|e] eqn:Hconv; [|discriminate].
      unfold tbind at 1.
      destruct (save_ue_asset sql) as [id|e] eqn:Hsave.
      * rewrite tbind_emit. unfold emit. rewrite Hrun. cbn.
        eexists. split; [reflexivity|].
        intros r rd sq Hin Hi Hc. apply elem_of_cons in Hin as [->|Hin].
        -- rewrite Hiloc in Hi. injection Hi as <-. rewrite Hconv in Hc.
           injection Hc as <-. rewrite Hsave. by left.
        -- specialize (Hev r rd sq Hin Hi Hc).
           destruct (save_ue_asset sq); set_solver.
      * rewrite Hrow. unfold emit. rewrite Hrun. cbn.
        eexists. split; [reflexivity|].
        intros r rd sq Hin Hi Hc. apply elem_of_cons in Hin as [->|Hin].
        -- rewrite Hiloc in Hi. injection Hi as <-. rewrite Hconv in Hc.
           injection Hc as <-. rewrite Hsave. by left.
        -- specialize (Hev r rd sq Hin Hi Hc).
           destruct (save_ue_asset sq); set_solver.
    + apply iloc_raises in Hiloc as Heq. subst e. rewrite Hrun. cbn.
      eexists. split; [reflexivity|].
      intros r rd sq Hin Hi Hc. apply elem_of_cons in Hin as [->|Hin].
      * rewrite Hiloc in Hi. discriminate.
      * apply (Hev r rd sq Hin Hi Hc).
Qed.

Lemma delete_marked_assets_all ids t :
  forallb delete_failure_is_caught ids = true ->
  exists ev, delete_marked_assets ids t = (Ok tt, t, ev)
    /\ forall asset_id, asset_id ∈ ids ->
         match delete_asset asset_id with
         | None => DeletedAsset asset_id ∈ ev
         | Some e => delete_warning asset_id e ∈ ev
         end.
Proof.
  induction ids as [|a rest IH]; cbn.
  - intros _. eexists. split; [done|]. intros ? Hin. by apply elem_of_nil in Hin.
  - rewrite andb_true_iff. intros [Ha Hrest].
    destruct (IH Hrest) as (ev & Hrun & Hev).
    unfold tbind at 1. unfold Table.delete_failure_is_caught in Ha.
    destruct (delete_asset a) as [e|] eqn:Hdel.
    + rewrite Ha. unfold emit. rewrite Hrun. cbn. eexists. split; [reflexivity|].
      intros b Hin. apply elem_of_cons in Hin as [->|Hin].
      * rewrite Hdel. by left.
      * specialize (Hev b Hin). destruct (delete_asset b); set_solver.
    + rewrite tbind_emit. unfold emit. rewrite Hrun. cbn. eexists. split; [reflexivity|].
      intros b Hin. apply elem_of_cons in Hin as [->|Hin].
      * rewrite Hdel. by left.
      * specialize (Hev b Hin). destruct (delete_asset b); set_solver.
Qed.

(** A failure that the loop over the rows does not catch ends it. *)
Lemma save_changed_rows_aborts rows t :
  forallb (row_failure_is_caught t) rows = false ->
  exists e ev, save_changed_rows rows t = (Raise e, t, ev).
Proof.
  induction rows as [|row rest IH]; cbn; [discriminate|].
  intros Hrows. unfold tbind at 1. rewrite get_row_eq.
  unfold Table.row_failure_is_caught in Hrows at 1.
  destruct (iloc (filtered t) row) as [row_data|e] eqn:Hiloc.
  - unfold tbind at 1, lift.
    destruct (convert_csv_row_to_sql_row row_data) as [sql|e]; [|by eexists _, _].
    unfold tbind at 1.
    destruct (save_ue_asset sql) as [id|e].
    + destruct (IH Hrows) as (e' & ev & Hrest).
      rewrite tbind_emit. unfold emit. rewrite Hrest. by eexists _, _.
    + destruct (caught e); unfold emit, traise; [|by eexists _, _].
      destruct (IH Hrows) as (e' & ev & Hrest). rewrite Hrest. by eexists _, _.
  - apply iloc_raises in Hiloc as ->.
    destruct (IH Hrows) as (e' & ev & Hrest). rewrite Hrest. by eexists _, _.
Qed.

Lemma delete_marked_assets_aborts ids t :
  forallb delete_failure_is_caught ids = false ->
  exists e ev, delete_marked_assets ids t = (Raise e, t, ev).
Proof.
  induction ids as [|a rest IH]; cbn; [discriminate|].
  intros Hids. unfold tbind at 1.
  unfold Table.delete_failure_is_caught in Hids at 1.
  destruct (delete_asset a) as [e|].
  - destruct (caught e); unfold emit, traise; [|by eexists _, _].
    destruct (IH Hids) as (e' & ev & Hrest). rewrite Hrest. by eexists _, _.
  - destruct (IH Hids) as (e' & ev & Hrest).
    rewrite tbind_emit. unfold emit. rewrite Hrest. by eexists _, _.
Qed.

(** [save_data], in terms of what its storage part does. *)
Lemma save_data_eq source_type t :
  save_data source_type t =
    let t0 := set_model_df (data t) t in
    let '(r, t1, ev) :=
      match default (data_source_type t) source_type with
      | FILE =>
          match to_csv (data t) with
          | None => (Ok tt, t0, [WroteCsv (data t)])
          | Some e => (Raise e, t0, [])
          end
      | SQLITE =>
          tbind (save_changed_rows (changed_rows t))
            (fun _ => delete_marked_assets (deleted_asset_ids t)) t0
      end in
    match r with
    | Ok _ =>
        (Ok tt, set_must_save false (set_deleted_asset_ids [] (set_changed_rows [] t1)),
         ev ++ [MessageBox "Changed data has been saved"])
    | Raise e => (Raise e, t1, ev)
    end.
Proof.
  unfold Table.save_data. rewrite tbind_get, tbind_modify. cbn zeta.
  unfold tbind at 1.
  destruct (default (data_source_type t) source_type).
  - destruct (to_csv (data t)); [reflexivity|].
    unfold emit, clear_rows_to_save, clear_asset_ids_to_delete.
    rewrite !tbind_modify. reflexivity.
  - destruct (tbind _ _ _) as [[[u|e] t1] ev]; [|reflexivity].
    unfold clear_rows_to_save, clear_asset_ids_to_delete.
    rewrite !tbind_modify. unfold emit. reflexivity.
Qed.

Lemma storage_part_state t0 rows ids :
  exists r ev,
    tbind (save_changed_rows rows) (fun _ => delete_marked_assets ids) t0 = (r, t0, ev).
Proof.
  unfold tbind.
  destruct (save_changed_rows_state rows t0) as (r1 & ev1 & ->).
  destruct r1 as [u|e]; [|by eexists _, _].
  destruct (delete_marked_assets_state ids t0) as (r2 & ev2 & ->). by eexists _, _.
Qed.

(** C9 (as amended). save_data clears the list of changed rows, the list
    of asset_ids to delete and the must_save flag exactly when it
    completes: when it returns all three are cleared, when it raises all
    three are as they were. With the flat-file source, a failure of the
    write is raised and nothing is cleared. With the database source, when
    every failure on a row or on a deletion is one of those the loops catch
    (KeyError, ValueError, AttributeError), the save completes: every
    changed row that can be read has been saved or, if its save failed,
    reported in a warning, every marked asset has been deleted or reported,
    and the lists are cleared; when a row or a deletion fails otherwise (an
    exception of another class, or one raised by the conversion of the
    row), the save raises. *)
Theorem save_data_clears_when_it_completes
    (source_type : option DataSourceType) t (r : result unit) t'
    (ev : list (event Row)) :
  save_data source_type t = (r, t', ev) ->
  (r = Ok tt ->
     changed_rows t' = [] /\ deleted_asset_ids t' = [] /\ must_save t' = false)
  /\ (forall e, r = Raise e ->
        changed_rows t' = changed_rows t
        /\ deleted_asset_ids t' = deleted_asset_ids t
        /\ must_save t' = must_save t)
  /\ (default (data_source_type t) source_type = FILE ->
        match to_csv (data t) with
        | Some e => r = Raise e /\ ev = []
        | None => r = Ok tt /\ WroteCsv (data t) ∈ ev
        end)
  /\ (default (data_source_type t) source_type = SQLITE ->
        forallb (row_failure_is_caught t) (changed_rows t) = true ->
        forallb delete_failure_is_caught (deleted_asset_ids t) = true ->
        r = Ok tt
        /\ (forall row row_data asset_data,
              row ∈ changed_rows t -> iloc (filtered t) row = Ok row_data ->
              convert_csv_row_to_sql_row row_data = Ok asset_data ->
              match save_ue_asset asset_data with
              | Ok asset_id => SavedAsset row asset_id ∈ ev
              | Raise e => save_warning row e ∈ ev
              end)
        /\ (forall asset_id, asset_id ∈ deleted_asset_ids t ->
              match delete_asset asset_id with
              | None => DeletedAsset asset_id ∈ ev
              | Some e => delete_warning asset_id e ∈ ev
              end))
  /\ (default (data_source_type t) source_type = SQLITE ->
        forallb (row_failure_is_caught t) (changed_rows t) = false
        \/ forallb delete_failure_is_caught (deleted_asset_ids t) = false ->
        exists e, r = Raise e).
Proof.
  rewrite save_data_eq. cbn zeta. intros Hrun.
  split; [|split; [|split; [|split]]].
  - intros ->. destruct (default (data_source_type t) source_type).
    + destruct (to_csv (data t)); [discriminate|]. by injection Hrun as <- <-.
    + destruct (tbind _ _ _) as [[[u|e] t1] ev1]; [|discriminate].
      by injection Hrun as <- <-.
  - intros e ->. destruct (default (data_source_type t) source_type).
    + destruct (to_csv (data t)); [|discriminate]. by injection Hrun as <- <- <-.
    + destruct (storage_part_state (set_model_df (data t) t) (changed_rows t)
                  (deleted_asset_ids t)) as (r1 & ev1 & Hs).
      rewrite Hs in Hrun. destruct r1; [discriminate|]. by injection Hrun as <- <- <-.
  - intros Hfile. rewrite Hfile in Hrun.
    destruct (to_csv (data t)).
    + by injection Hrun as <- <- <-.
    + injection Hrun as <- <- <-. split; [done|]. set_solver.
  - intros Hsql Hrows Hids. rewrite Hsql in Hrun.
    destruct (save_changed_rows_all (changed_rows t) (set_model_df (data t) t))
      as (ev1 & Hrun1 & Hev1); [done|].
    destruct (delete_marked_assets_all (deleted_asset_ids t) (set_model_df (data t) t))
      as (ev2 & Hrun2 & Hev2); [done|].
    unfold tbind in Hrun. rewrite Hrun1, Hrun2 in Hrun.
    injection Hrun as <- <- <-. split; [done|]. split.
    + intros row rd sq Hin Hi Hc. specialize (Hev1 row rd sq Hin Hi Hc).
      destruct (save_ue_asset sq); set_solver.
    + intros a Hin. specialize (Hev2 a Hin). destruct (delete_asset a); set_solver.
  - intros Hsql Hfail. rewrite Hsql in Hrun. unfold tbind in Hrun.
    destruct (forallb (row_failure_is_caught t) (changed_rows t)) eqn:Hrows.
    + destruct Hfail as [|Hids]; [discriminate|].
      destruct (save_changed_rows_all (changed_rows t) (set_model_df (data t) t))
        as (ev1 & Hrun1 & _); [done|].
      destruct (delete_marked_assets_aborts (deleted_asset_ids t)
                  (set_model_df (data t) t) Hids) as (e & ev2 & Hrun2).
      rewrite Hrun1, Hrun2 in Hrun. injection Hrun as <- _ _. by exists e.
    + destruct (save_changed_rows_aborts (changed_rows t) (set_model_df (data t) t))
        as (e & ev1 & Hrun1); [done|].
      rewrite Hrun1 in Hrun. injection Hrun as <- _ _. by exists e.
Qed.
End save_facts.

Lemma save_data_clears_when_it_completes_witness :
  let '(r, t', ev) :=
    save_data Demo.to_csv_ok Demo.convert_csv_row_to_sql_row Demo.save_ue_asset
      Demo.delete_asset None Demo.db_view in
  r = Ok tt
  /\ changed_rows t' = [] /\ deleted_asset_ids t' = [] /\ must_save t' = false
  /\ SavedAsset 0 "a" ∈ ev /\ save_warning 1 KeyError ∈ ev /\ SavedAsset 2 "c" ∈ ev
  /\ DeletedAsset "x" ∈ ev /\ delete_warning "gone" ValueError ∈ ev.
Proof.
  destruct (save_data Demo.to_csv_ok Demo.convert_csv_row_to_sql_row Demo.save_ue_asset
              Demo.delete_asset None Demo.db_view) as [[r t'] ev] eqn:Hrun.
  destruct (save_data_clears_when_it_completes Demo.to_csv_ok
              Demo.convert_csv_row_to_sql_row Demo.save_ue_asset Demo.delete_asset
              None Demo.db_view r t' ev Hrun) as (Hok & _ & _ & Hdb & _).
  destruct Hdb as (Hr & Hrows & Hids); [reflexivity..|].
  destruct (Hok Hr) as (H1 & H2 & H3).
  split; [exact Hr|]. split; [exact H1|]. split; [exact H2|]. split; [exact H3|].
  split; [|split; [|split; [|split]]].
  - apply (Hrows 0%Z "a" "a"); [by left|reflexivity|reflexivity].
  - apply (Hrows 1%Z "bad" "bad"); [right; by left|reflexivity|reflexivity].
  - apply (Hrows 2%Z "c" "c"); [right; right; by left|reflexivity|reflexivity].
  - apply (Hids "x"). by left.
  - apply (Hids "gone"). right. by left.
Defined.

(** The flat-file save of the same view on a full disk: the exception is
    raised and the lists and the flag are as they were. *)
Example save_data_full_disk :
  let '(r, t', ev) :=
    save_data Demo.to_csv_full_disk Demo.convert_csv_row_to_sql_row Demo.save_ue_asset
      Demo.delete_asset None Demo.file_view in
  r = Raise OSError
  /\ changed_rows t' = [0; 1; 2]%Z /\ deleted_asset_ids t' = ["x"; "gone"]
  /\ must_save t' = true.
Proof. vm_compute. done. Qed.

(** The database is locked when the second changed row is written: the
    OperationalError is not one that the loop catches, the save stops
    there, the third row is not saved, no asset is deleted and nothing is
    cleared. *)
Lemma uncaught_row_failure_stops_the_save :
  let '(r, t', ev) :=
    save_data Demo.to_csv_ok Demo.convert_csv_row_to_sql_row Demo.save_ue_asset_locked
      Demo.delete_asset None Demo.db_view in
  r = Raise OperationalError
  /\ SavedAsset 0 "a" ∈ ev /\ (SavedAsset 2 "c" ∉ ev) /\ (DeletedAsset "x" ∉ ev)
  /\ changed_rows t' = [0; 1; 2]%Z /\ deleted_asset_ids t' = ["x"; "gone"]
  /\ must_save t' = true.
Proof.
  vm_compute. split; [reflexivity|]. split; [by left|].
  split; [|split; [|done]].
  - intros H. repeat (apply elem_of_cons in H as [H|H]; [discriminate H|]).
    by apply elem_of_nil in H.
  - intros H. repeat (apply elem_of_cons in H as [H|H]; [discriminate H|]).
    by apply elem_of_nil in H.
Qed.

End TableFacts.
